(** * Last-Modified validation check of redbot, and the HTML formatter's
    note keys and header presenter.

    Shallow embedding of
      - src/redbot/resource/active_check/lm_validate.py  (LmValidate)
      - src/redbot/formatter/html.py  (format_category / format_problems note
        keys, HeaderPresenter.Show).
    Python exceptions that escape a method are an explicit error outcome. *)

From Stdlib Require Import ZArith String Ascii List Bool Lia Finite.
Import ListNotations.
Open Scope string_scope.
Open Scope Z_scope.

(* ------------------------------------------------------------------ *)
(** ** Notes (redbot.speak) *)

Inductive level := GOOD | WARN | BAD | INFO.

Inductive category := GENERAL | SECURITY | CONNECTION | CONNEG | CACHING
                    | VALIDATION | RANGE.

(** A note class: its name, category and level. *)
Record NoteClass := mkNoteClass {
  nc_name : string;
  nc_category : category;
  nc_level : level
}.

(** A note as appended by [add_base_note]: subject, class, keyword
    parameters. *)
Record Note := mkNote {
  note_subject : string;
  note_class : NoteClass;
  note_params : list (string * string)
}.

Definition LM_SUBREQ_PROBLEM := mkNoteClass "LM_SUBREQ_PROBLEM" VALIDATION BAD.
Definition IMS_304 := mkNoteClass "IMS_304" VALIDATION GOOD.
Definition IMS_FULL := mkNoteClass "IMS_FULL" VALIDATION WARN.
Definition IMS_UNKNOWN := mkNoteClass "IMS_UNKNOWN" VALIDATION INFO.
Definition IMS_STATUS := mkNoteClass "IMS_STATUS" VALIDATION INFO.

(** Modelled from the spec: [MISSING_HDRS_304] is declared in
    redbot/resource/active_check/base.py, which is not in the sources. The
    spec calls it a note naming a header that a validation hit should still
    carry; its level is not given there, it is taken as a warning. *)
Definition MISSING_HDRS_304 := mkNoteClass "MISSING_HDRS_304" VALIDATION WARN.

(* ------------------------------------------------------------------ *)
(** ** Messages *)

(** Values of the parsed-header dictionary that the check reads: the
    header parser stores [last-modified] as an integer POSIX timestamp. *)
Inductive hval := HInt (z : Z) | HOther.

Record HttpError := mkHttpError { err_desc : string }.

Record Response := mkResponse {
  status_code : string;
  parsed_headers : list (string * hval);
  payload_md5 : string;
  complete : bool;
  http_error : option HttpError
}.

Record Request := mkRequest { req_headers : list (string * string) }.

(** [dict.has_key] and [dict[k]] on the parsed headers. *)
Definition has_key (d : list (string * hval)) (k : string) : bool :=
  existsb (fun p => String.eqb (fst p) k) d.

Fixpoint lookup (d : list (string * hval)) (k : string) : option hval :=
  match d with
  | [] => None
  | (k', v) :: d' => if String.eqb k' k then Some v else lookup d' k
  end.

(** The completion delivered by the fetch layer: a response that did not
    complete carries the error that stopped it (spec, section 6). *)
Definition response_wf (r : Response) : Prop :=
  complete r = false -> http_error r <> None.

(* ------------------------------------------------------------------ *)
(** ** State of the base resource and the check's effects *)

(** The fields of the base resource the check writes: the tri-state
    [ims_support] (None is "not yet determined") and the notes. *)
Record Base := mkBase {
  ims_support : option bool;
  notes : list Note
}.

Inductive PyExc := AttributeError | IndexError | TypeError.

(** State and exception monad over the base resource. *)
Definition M (A : Type) := Base -> (PyExc + (A * Base)).

Definition ret {A} (a : A) : M A := fun s => inr (a, s).
Definition bind {A B} (m : M A) (k : A -> M B) : M B :=
  fun s => match m s with inl e => inl e | inr (a, s') => k a s' end.
Definition raise {A} (e : PyExc) : M A := fun _ => inl e.

Notation "x <- m ;; k" := (bind m (fun x => k))
  (at level 61, m at next level, right associativity).
Notation "m ;;; k" := (bind m (fun _ => k))
  (at level 61, right associativity).

Definition set_ims_support (b : bool) : M unit :=
  fun s => inr (tt, mkBase (Some b) (notes s)).

(** Modelled from the spec: [SubRequest.add_base_note] (base.py, not in the
    sources) instantiates the note and appends it to the base resource's
    notes. *)
Definition add_base_note (subject : string) (nc : NoteClass)
  (params : list (string * string)) : M unit :=
  fun s => inr (tt, mkBase (ims_support s) (notes s ++ [mkNote subject nc params])%list).

(** Modelled from the spec: [SubRequest.check_missing_hdrs] (base.py, not in
    the sources): for each listed header absent from the probe response, a
    separate note naming that header. *)
Fixpoint check_missing_hdrs (probe : Response) (hdrs : list string)
  (nc : NoteClass) (subreq_type : string) : M unit :=
  match hdrs with
  | [] => ret tt
  | h :: hs =>
      (if has_key (parsed_headers probe) h then ret tt
       else add_base_note "headers" nc
              [("missing_hdrs", h); ("subreq_type", subreq_type)]) ;;;
      check_missing_hdrs probe hs nc subreq_type
  end.

(* ------------------------------------------------------------------ *)
(** ** LmValidate.preflight and LmValidate.done *)

Definition preflight (base_resp : Response) : M bool :=
  if has_key (parsed_headers base_resp) "last-modified" then ret true
  else set_ims_support false ;;; ret false.

(** [self.response.http_error.desc]: attribute access on [None] raises. *)
Definition http_error_desc (r : Response) : M string :=
  match http_error r with
  | Some e => ret (err_desc e)
  | None => raise AttributeError
  end.

Definition missing_304_hdrs : list string :=
  ["cache-control"; "content-location"; "etag"; "expires"; "vary"].

Definition done (base_resp probe : Response) : M unit :=
  if negb (complete probe) then
    d <- http_error_desc probe ;;
    add_base_note "" LM_SUBREQ_PROBLEM [("problem", d)]
  else if String.eqb (status_code probe) "304" then
    set_ims_support true ;;;
    add_base_note "header-last-modified" IMS_304 [] ;;;
    check_missing_hdrs probe missing_304_hdrs MISSING_HDRS_304 "If-Modified-Since"
  else if String.eqb (status_code probe) (status_code base_resp) then
    if String.eqb (payload_md5 probe) (payload_md5 base_resp) then
      set_ims_support false ;;;
      add_base_note "header-last-modified" IMS_FULL []
    else
      add_base_note "header-last-modified" IMS_UNKNOWN []
  else
    add_base_note "header-last-modified" IMS_STATUS
      [("ims_status", status_code probe);
       ("enc_ims_status",
         if String.eqb (status_code probe) "" then "(unknown)"
         else status_code probe)].

(** Modelled from the spec: the driver of a sub-request ([SubRequest.run],
    base.py, not in the sources) dispatches the probe only when [preflight]
    returns true; the result is the sub-request's [fetch_started]. *)
Definition run (base_resp : Response) : M bool :=
  ok <- preflight base_resp ;;
  if ok then ret true else ret false.

(* ------------------------------------------------------------------ *)
(** ** datetime.utcfromtimestamp *)

(** A naive UTC datetime, plus the day count since 1970-01-01 that
    [weekday()] reads. *)
Record datetime := mkDatetime {
  dt_year : Z; dt_month : Z; dt_day : Z;
  dt_hour : Z; dt_minute : Z; dt_second : Z;
  dt_days : Z
}.

(** Proleptic Gregorian date of a day count since 1970-01-01
    (the computation of [gmtime]). *)
Definition civil_from_days (z0 : Z) : Z * Z * Z :=
  let z := z0 + 719468 in
  let era := z / 146097 in
  let doe := z - era * 146097 in
  let yoe := (doe - doe / 1460 + doe / 36524 - doe / 146096) / 365 in
  let y := yoe + era * 400 in
  let doy := doe - (365 * yoe + yoe / 4 - yoe / 100) in
  let mp := (5 * doy + 2) / 153 in
  let d := doy - (153 * mp + 2) / 5 + 1 in
  let m := if mp <? 10 then mp + 3 else mp - 9 in
  ((if m <=? 2 then y + 1 else y), m, d)%Z.

(** [datetime.utcfromtimestamp]: raises [ValueError] (here [None]) when the
    year falls outside [MINYEAR..MAXYEAR] = 1..9999. *)
Definition utcfromtimestamp (ts : Z) : option datetime :=
  let days := (ts / 86400)%Z in
  let secs := (ts mod 86400)%Z in
  match civil_from_days days with
  | (y, m, d) =>
      if ((1 <=? y) && (y <=? 9999))%Z then
        Some (mkDatetime y m d (secs / 3600) ((secs mod 3600) / 60) (secs mod 60) days)
      else None
  end.

(** [datetime.weekday()]: Monday is 0; 1970-01-01 was a Thursday. *)
Definition weekday (dt : datetime) : Z := ((dt_days dt + 3) mod 7)%Z.

(* ------------------------------------------------------------------ *)
(** ** %-formatting *)

Definition digit_char (n : Z) : ascii := ascii_of_nat (48 + Z.to_nat n).

Fixpoint dec_aux (fuel : nat) (n : Z) (acc : string) : string :=
  match fuel with
  | O => acc
  | S f =>
      let acc' := String (digit_char (n mod 10)) acc in
      if (n <? 10)%Z then acc' else dec_aux f (n / 10) acc'
  end.

(** Decimal digits of a non-negative integer. *)
Definition dec (n : Z) : string := dec_aux (S (Z.to_nat (Z.log2 n))) n "".

Fixpoint zeros (k : nat) : string :=
  match k with O => "" | S k' => String "0" (zeros k') end.

(** ["%.<prec>d" % n]: at least [prec] digits, zero-filled on the left. *)
Definition pct_d (prec : nat) (n : Z) : string :=
  let ds := dec (Z.abs n) in
  let body := zeros (prec - String.length ds) ++ ds in
  if (n <? 0)%Z then "-" ++ body else body.

(** ["%s" % x] for the entries of [_months], whose first entry is [None]. *)
Definition pct_s (x : option string) : string :=
  match x with Some s => s | None => "None" end.

(* ------------------------------------------------------------------ *)
(** ** LmValidate.modify_req_hdrs *)

Definition _weekdays : list string :=
  ["Mon"; "Tue"; "Wed"; "Thu"; "Fri"; "Sat"; "Sun"].
Definition _months : list (option string) :=
  [None; Some "Jan"; Some "Feb"; Some "Mar"; Some "Apr"; Some "May"; Some "Jun";
   Some "Jul"; Some "Aug"; Some "Sep"; Some "Oct"; Some "Nov"; Some "Dec"].

(** Python list indexing: [IndexError] (here [None]) out of range. *)
Definition py_index {A} (l : list A) (i : Z) : option A :=
  if (i <? 0)%Z then None else nth_error l (Z.to_nat i).

(** The [u"%s, %.2d %s %.4d %.2d:%.2d:%.2d GMT" % (...)] expression. *)
Definition date_str (l_m : datetime) : option string :=
  match py_index _weekdays (weekday l_m), py_index _months (dt_month l_m) with
  | Some wd, Some mo =>
      Some (wd ++ ", " ++ pct_d 2 (dt_day l_m) ++ " " ++ pct_s mo ++ " "
            ++ pct_d 4 (dt_year l_m) ++ " " ++ pct_d 2 (dt_hour l_m) ++ ":"
            ++ pct_d 2 (dt_minute l_m) ++ ":" ++ pct_d 2 (dt_second l_m) ++ " GMT")
  | _, _ => None
  end.

(** [modify_req_hdrs]: [inl] is an exception escaping the method. The
    [ValueError] of [utcfromtimestamp] is caught and the base headers
    returned. *)
Definition modify_req_hdrs (base_req : Request) (base_resp : Response)
  : PyExc + list (string * string) :=
  let req_hdrs := req_headers base_req in
  if has_key (parsed_headers base_resp) "last-modified" then
    match lookup (parsed_headers base_resp) "last-modified" with
    | Some (HInt ts) =>
        match utcfromtimestamp ts with
        | None => inr req_hdrs
        | Some l_m =>
            match date_str l_m with
            | Some s => inr (req_hdrs ++ [("If-Modified-Since", s)])%list
            | None => inl IndexError
            end
        end
    | _ => inl TypeError
    end
  else inr req_hdrs.

(* ------------------------------------------------------------------ *)
(** ** HTML formatter: note keys *)

(** Note objects as the formatter sees them: [resource.notes] holds
    references, and [id(note)] is the referenced object's address. *)
Abbreviation NoteRef := (Z * Note)%type.

Definition level_str (l : level) : string :=
  match l with GOOD => "good" | WARN => "warn" | BAD => "bad" | INFO => "info" end.

Definition category_eqb (a b : category) : bool :=
  match a, b with
  | GENERAL, GENERAL | SECURITY, SECURITY | CONNECTION, CONNECTION
  | CONNEG, CONNEG | CACHING, CACHING | VALIDATION, VALIDATION
  | RANGE, RANGE => true
  | _, _ => false
  end.

(** [str(id(note))] of a CPython object: its address in decimal. *)
Definition id_str (r : NoteRef) : string := dec (fst r).

Section Formatter.

Variable e_html : string -> string.
Variable show_summary : Note -> string -> string.
Variable show_text : Note -> string -> string.
Variable lang : string.

(** The note loop of [SingleEntryHtmlFormatter.format_category]: the list
    items appended to [out] and the pairs appended to [self.hidden_text]. *)
Definition format_category_notes (cat : category) (resource_notes : list NoteRef)
  : list string * list (string * string) :=
  let ns := filter (fun r : NoteRef => category_eqb (nc_category (note_class (snd r))) cat)
              resource_notes in
  (map (fun r =>
          "    <li class='" ++ level_str (nc_level (note_class (snd r)))
          ++ " note' data-subject='" ++ e_html (note_subject (snd r))
          ++ "' data-name='noteid-" ++ id_str r ++ "'>
        <span>" ++ e_html (show_summary (snd r) lang) ++ "</span>
    </li>") ns,
   map (fun r => ("noteid-" ++ id_str r, show_text (snd r) lang)) ns).

(** The loop of [TableHtmlFormatter.format_problems]. *)
Definition format_problems (problems : list NoteRef)
  : list string * list (string * string) :=
  (map (fun m =>
          "    <li class='" ++ level_str (nc_level (note_class (snd m))) ++ " "
          ++ e_html (note_subject (snd m)) ++ " note' name='msgid-" ++ id_str m
          ++ "'><span>" ++ e_html (show_summary (snd m) lang) ++ "</span></li>")
       problems,
   map (fun m => ("msgid-" ++ id_str m, show_text (snd m) lang)) problems).

End Formatter.

(* ------------------------------------------------------------------ *)
(** ** HTML formatter: HeaderPresenter.Show *)

(** [str.lower] on the ASCII characters of a header name. *)
Definition ascii_lower (c : ascii) : ascii :=
  let n := nat_of_ascii c in
  if (65 <=? n)%nat && (n <=? 90)%nat then ascii_of_nat (n + 32) else c.

Fixpoint lower (s : string) : string :=
  match s with
  | EmptyString => EmptyString
  | String c s' => String (ascii_lower c) (lower s')
  end.

(** [s.replace('-', '_')]. *)
Fixpoint replace_dash (s : string) : string :=
  match s with
  | EmptyString => EmptyString
  | String c s' =>
      String (if Ascii.eqb c "-" then "_"%char else c) (replace_dash s')
  end.

Inductive method := M_Show | M_BARE_URI | M_I.

(** An attribute of a presenter instance: a bound method or a plain value
    (the [formatter] instance attribute). *)
Inductive attr := AMethod (m : method) | AValue.

(** The attributes of a [HeaderPresenter] instance whose names do not start
    with an underscore (everything inherited from [object] does). *)
Definition HeaderPresenter_attrs : list (string * attr) :=
  [("formatter", AValue); ("Show", AMethod M_Show);
   ("BARE_URI", AMethod M_BARE_URI); ("content_location", AMethod M_BARE_URI);
   ("location", AMethod M_BARE_URI); ("x_xrds_location", AMethod M_BARE_URI);
   ("I", AMethod M_I)].

Fixpoint getattr (attrs : list (string * attr)) (a : string) : option attr :=
  match attrs with
  | [] => None
  | (k, v) :: r => if String.eqb k a then Some v else getattr r a
  end.

(** What [Show] calls: [ViaAttr tok v] is [getattr(self, name_token)(name,
    value)], [Wrapped] is [self.I(e_html(value), len(name))], [ShowIndexError]
    the [IndexError] of [name_token[0]] on an empty name. *)
Inductive resolution := ViaAttr (tok : string) (v : attr) | Wrapped | ShowIndexError.

Definition Show (attrs : list (string * attr)) (name : string) : resolution :=
  let name := lower name in
  let name_token := replace_dash name in
  match name_token with
  | EmptyString => ShowIndexError
  | String c _ =>
      if negb (Ascii.eqb c "_") then
        match getattr attrs name_token with
        | Some v => ViaAttr name_token v
        | None => Wrapped
        end
      else Wrapped
  end.

(* ================================================================== *)
(** * Properties *)

(** The notes [check_missing_hdrs] appends, one per absent header. *)
Definition missing_note (subreq_type : string) (h : string) : Note :=
  mkNote "headers" MISSING_HDRS_304 [("missing_hdrs", h); ("subreq_type", subreq_type)].

Definition absent_hdrs (probe : Response) (hdrs : list string) : list string :=
  filter (fun h => negb (has_key (parsed_headers probe) h)) hdrs.

Definition is_level (l : level) (n : Note) : bool :=
  match nc_level (note_class n), l with
  | GOOD, GOOD | WARN, WARN | BAD, BAD | INFO, INFO => true
  | _, _ => false
  end.

Lemma check_missing_hdrs_eq (probe : Response) (hdrs : list string)
  (t : string) (st : Base) :
  check_missing_hdrs probe hdrs MISSING_HDRS_304 t st
  = inr (tt, mkBase (ims_support st)
               (notes st ++ map (missing_note t) (absent_hdrs probe hdrs))%list).
Proof.
  revert st; induction hdrs as [|h hs IH]; intro st; simpl.
  - destruct st; simpl; rewrite app_nil_r; reflexivity.
  - unfold bind at 1.
    destruct (has_key (parsed_headers probe) h); simpl.
    + rewrite IH; reflexivity.
    + rewrite IH; simpl; rewrite <- app_assoc; reflexivity.
Qed.

Lemma missing_notes_not_good (t : string) (hs : list string) :
  filter (is_level GOOD) (map (missing_note t) hs) = [].
Proof. induction hs; simpl; auto. Qed.

Lemma missing_notes_nodup (t : string) (hs : list string) :
  NoDup hs -> NoDup (map (missing_note t) hs).
Proof.
  intro H; apply Injective_map_NoDup; auto.
  intros a b E; unfold missing_note in E; congruence.
Qed.

Lemma missing_304_hdrs_nodup : NoDup missing_304_hdrs.
Proof.
  unfold missing_304_hdrs.
  repeat constructor; simpl; intuition discriminate.
Qed.

Lemma has_key_lookup (d : list (string * hval)) (k : string) (v : hval) :
  lookup d k = Some v -> has_key d k = true.
Proof.
  induction d as [|[k' v'] d IH]; simpl; [discriminate|].
  destruct (String.eqb k' k); simpl; auto.
Qed.

(** ** C1 *)

(** C1: a complete probe answered with [304] sets [ims_support] to true and
    appends exactly: one Good note [IMS_304], then one distinct
    [MISSING_HDRS_304] note for each of cache-control, content-location,
    etag, expires and vary absent from the probe response, naming it. *)
Theorem lm_done_304 (base_resp probe : Response) (st : Base)
  (Hc : complete probe = true) (H304 : status_code probe = "304") :
  let new := (mkNote "header-last-modified" IMS_304 []
              :: map (missing_note "If-Modified-Since")
                   (absent_hdrs probe missing_304_hdrs)) in
  done base_resp probe st = inr (tt, mkBase (Some true) (notes st ++ new)%list)
  /\ length (filter (is_level GOOD) new) = 1%nat
  /\ NoDup new
  /\ (forall h, In h missing_304_hdrs ->
        (In (missing_note "If-Modified-Since" h) new
         <-> has_key (parsed_headers probe) h = false)).
Proof.
  intro new; repeat split.
  - unfold done; rewrite Hc, H304.
    unfold bind at 1; unfold set_ims_support at 1.
    cbn [negb String.eqb Ascii.eqb Bool.eqb].
    unfold bind, add_base_note; cbv beta iota.
    rewrite check_missing_hdrs_eq; cbn [ims_support notes].
    rewrite <- app_assoc; reflexivity.
  - unfold new; simpl; rewrite missing_notes_not_good; reflexivity.
  - unfold new; constructor.
    + rewrite in_map_iff; intros [h [E _]]; discriminate E.
    + apply missing_notes_nodup, NoDup_filter, missing_304_hdrs_nodup.
  - intro Hn; unfold new in Hn; destruct Hn as [E|Hn]; [discriminate E|].
    rewrite in_map_iff in Hn; destruct Hn as [h' [E Hh']].
    unfold missing_note in E; injection E as ->.
    unfold absent_hdrs in Hh'; apply filter_In in Hh'.
    destruct Hh' as [_ Hb]; now apply negb_true_iff.
  - intros Hb; unfold new; right; apply in_map with (f := missing_note _).
    unfold absent_hdrs; apply filter_In; rewrite Hb; auto.
Qed.

Lemma lm_done_304_witness :
  let probe := mkResponse "304" [("etag", HOther)] "" true None in
  complete probe = true /\ status_code probe = "304" /\
  done (mkResponse "200" [("last-modified", HInt 0)] "x" true None) probe
       (mkBase None []) =
  inr (tt, mkBase (Some true)
         [mkNote "header-last-modified" IMS_304 [];
          missing_note "If-Modified-Since" "cache-control";
          missing_note "If-Modified-Since" "content-location";
          missing_note "If-Modified-Since" "expires";
          missing_note "If-Modified-Since" "vary"]).
Proof.
  intro probe; split; [reflexivity|split; [reflexivity|]].
  exact (proj1 (lm_done_304 (mkResponse "200" [("last-modified", HInt 0)] "x" true None)
                  probe (mkBase None []) eq_refl eq_refl)).
Defined.

(** Unfolds the state monad's plumbing in a goal about [done] / [run]. *)
Ltac step_m :=
  unfold bind, set_ims_support, add_base_note, ret, raise, http_error_desc;
  cbv beta iota.

(** ** C2 *)

(** The probe and base response behind the C2 counterexample: same status,
    different payload hashes. *)
Definition c2_base := mkResponse "200" [("last-modified", HInt 0)] "md5-a" true None.
Definition c2_probe := mkResponse "200" [] "md5-b" true None.

(** C2 (counterexample): with equal statuses [200] but different payload
    hashes, [done] leaves [ims_support] undetermined and appends only the
    Info note [IMS_UNKNOWN], not a Warn note with [ims_support] false. *)
Lemma lm_done_same_status_changed_cex :
  payload_md5 c2_probe <> payload_md5 c2_base
  /\ done c2_base c2_probe (mkBase None [])
     = inr (tt, mkBase None [mkNote "header-last-modified" IMS_UNKNOWN []])
  /\ nc_level IMS_UNKNOWN = INFO.
Proof. split; [discriminate|split; reflexivity]. Qed.

(** C2 (amended): for a complete probe whose status is not [304] and equals
    the base status, identical payload hashes set [ims_support] to false
    and append one Warn note [IMS_FULL]; different hashes append one Info
    note [IMS_UNKNOWN] and leave [ims_support] as it was. *)
Theorem lm_done_same_status (base_resp probe : Response) (st : Base)
  (Hc : complete probe = true) (Hn304 : status_code probe <> "304")
  (Hs : status_code probe = status_code base_resp) :
  (payload_md5 probe = payload_md5 base_resp ->
     done base_resp probe st
     = inr (tt, mkBase (Some false)
                  (notes st ++ [mkNote "header-last-modified" IMS_FULL []])%list)
     /\ nc_level IMS_FULL = WARN)
  /\ (payload_md5 probe <> payload_md5 base_resp ->
     done base_resp probe st
     = inr (tt, mkBase (ims_support st)
                  (notes st ++ [mkNote "header-last-modified" IMS_UNKNOWN []])%list)
     /\ nc_level IMS_UNKNOWN = INFO).
Proof.
  apply String.eqb_neq in Hn304; apply String.eqb_eq in Hs.
  split; intro Hm; split; try reflexivity;
    unfold done; rewrite Hc, Hn304, Hs; cbn [negb].
  - apply String.eqb_eq in Hm; rewrite Hm; step_m; reflexivity.
  - apply String.eqb_neq in Hm; rewrite Hm; step_m; reflexivity.
Qed.

Lemma lm_done_same_status_witness :
  complete c2_probe = true /\ status_code c2_probe <> "304"
  /\ status_code c2_probe = status_code c2_base
  /\ done c2_base c2_probe (mkBase (Some true) [])
     = inr (tt, mkBase (Some true) [mkNote "header-last-modified" IMS_UNKNOWN []]).
Proof.
  split; [reflexivity|split; [discriminate|split; [reflexivity|]]].
  refine (proj1 (proj2 (lm_done_same_status c2_base c2_probe (mkBase (Some true) [])
                          eq_refl _ eq_refl) _)); discriminate.
Defined.

(** ** C4 *)

(** C4: for a probe that did not complete (carrying the transport error, as
    the fetch layer delivers it), [done] returns normally, appends exactly
    one Bad note [LM_SUBREQ_PROBLEM] whose [problem] is the error's
    description, and leaves [ims_support] unchanged. *)
Theorem lm_done_incomplete (base_resp probe : Response) (st : Base)
  (Hwf : response_wf probe) (Hc : complete probe = false) :
  exists e, http_error probe = Some e
  /\ done base_resp probe st
     = inr (tt, mkBase (ims_support st)
                  (notes st ++ [mkNote "" LM_SUBREQ_PROBLEM [("problem", err_desc e)]])%list)
  /\ nc_level LM_SUBREQ_PROBLEM = BAD.
Proof.
  destruct (http_error probe) as [e|] eqn:He; [|exfalso; exact (Hwf Hc He)].
  exists e; split; [reflexivity|split; [|reflexivity]].
  unfold done; rewrite Hc; cbn [negb]; step_m; rewrite He; reflexivity.
Qed.

Definition c4_probe :=
  mkResponse "" [] "" false (Some (mkHttpError "connection refused")).

Lemma lm_done_incomplete_witness :
  response_wf c4_probe /\ complete c4_probe = false
  /\ done c2_base c4_probe (mkBase None [])
     = inr (tt, mkBase None [mkNote "" LM_SUBREQ_PROBLEM
                               [("problem", "connection refused")]]).
Proof.
  assert (Hwf : response_wf c4_probe) by (intros _; discriminate).
  split; [exact Hwf|split; [reflexivity|]].
  destruct (lm_done_incomplete c2_base c4_probe (mkBase None []) Hwf eq_refl)
    as [e [He [Hd _]]].
  injection He as <-; exact Hd.
Defined.

(** ** C6 *)

(** C6: without a parsed [last-modified] header, [preflight] returns false,
    sets [ims_support] to false and appends no note, and the sub-request is
    not dispatched ([fetch_started] false); with the header it returns true
    and changes nothing, and the sub-request is dispatched. *)
Theorem lm_preflight (base_resp : Response) (st : Base) :
  (has_key (parsed_headers base_resp) "last-modified" = false ->
     preflight base_resp st = inr (false, mkBase (Some false) (notes st))
     /\ run base_resp st = inr (false, mkBase (Some false) (notes st)))
  /\ (has_key (parsed_headers base_resp) "last-modified" = true ->
     preflight base_resp st = inr (true, st)
     /\ run base_resp st = inr (true, st)).
Proof.
  split; intro H; unfold run, preflight; rewrite H; step_m; split; reflexivity.
Qed.

Lemma lm_preflight_witness :
  preflight c2_probe (mkBase None []) = inr (false, mkBase (Some false) [])
  /\ preflight c2_base (mkBase None []) = inr (true, mkBase None []).
Proof.
  split.
  - exact (proj1 (proj1 (lm_preflight c2_probe (mkBase None [])) eq_refl)).
  - exact (proj1 (proj2 (lm_preflight c2_base (mkBase None [])) eq_refl)).
Defined.

(** ** C7 *)

(** C7: a complete probe whose status is neither [304] nor the base status
    appends exactly one Info note [IMS_STATUS] carrying that status and
    leaves [ims_support] unchanged; and on every probe the fetch layer can
    deliver, [done] returns normally and appends at least one note. *)
Theorem lm_done_other_status (base_resp probe : Response) (st : Base)
  (Hc : complete probe = true) (Hn304 : status_code probe <> "304")
  (Hns : status_code probe <> status_code base_resp) :
  done base_resp probe st
  = inr (tt, mkBase (ims_support st)
               (notes st ++ [mkNote "header-last-modified" IMS_STATUS
                               [("ims_status", status_code probe);
                                ("enc_ims_status",
                                  if String.eqb (status_code probe) "" then "(unknown)"
                                  else status_code probe)]])%list)
  /\ nc_level IMS_STATUS = INFO
  /\ (forall b p s, response_wf p ->
        exists n rest s', done b p s = inr (tt, s')
                          /\ notes s' = (notes s ++ n :: rest)%list).
Proof.
  split; [|split; [reflexivity|]].
  - apply String.eqb_neq in Hn304, Hns.
    unfold done; rewrite Hc, Hn304, Hns; cbn [negb]; step_m; reflexivity.
  - intros b p s Hwf.
    destruct (complete p) eqn:Hcp.
    + destruct (String.eqb (status_code p) "304") eqn:E304.
      * destruct (lm_done_304 b p s Hcp (proj1 (String.eqb_eq _ _) E304))
          as [Hd _].
        eexists; eexists; eexists; split; [exact Hd|reflexivity].
      * unfold done; rewrite Hcp, E304; cbn [negb].
        destruct (String.eqb (status_code p) (status_code b));
          [destruct (String.eqb (payload_md5 p) (payload_md5 b))|];
          step_m; eexists; eexists; eexists; split; reflexivity.
    + destruct (lm_done_incomplete b p s Hwf Hcp) as [e [_ [Hd _]]].
      eexists; eexists; eexists; split; [exact Hd|reflexivity].
Qed.

Definition c7_probe := mkResponse "412" [] "md5-b" true None.

Lemma lm_done_other_status_witness :
  complete c7_probe = true /\ status_code c7_probe <> "304"
  /\ status_code c7_probe <> status_code c2_base
  /\ done c2_base c7_probe (mkBase None [])
     = inr (tt, mkBase None [mkNote "header-last-modified" IMS_STATUS
                               [("ims_status", "412"); ("enc_ims_status", "412")]]).
Proof.
  split; [reflexivity|split; [discriminate|split; [discriminate|]]].
  exact (proj1 (lm_done_other_status c2_base c7_probe (mkBase None [])
                  eq_refl ltac:(discriminate) ltac:(discriminate))).
Defined.

(** ** C5 and C10: the probe's request headers *)

(** C5: when the [last-modified] timestamp cannot be converted
    ([utcfromtimestamp] raises [ValueError]), [modify_req_hdrs] returns the
    base request's headers unchanged. *)
Theorem lm_modify_req_hdrs_bad_date (base_req : Request) (base_resp : Response)
  (ts : Z) (Hlm : lookup (parsed_headers base_resp) "last-modified" = Some (HInt ts))
  (Hbad : utcfromtimestamp ts = None) :
  modify_req_hdrs base_req base_resp = inr (req_headers base_req).
Proof.
  unfold modify_req_hdrs.
  rewrite (has_key_lookup _ _ _ Hlm), Hlm, Hbad; reflexivity.
Qed.

Definition c5_req := mkRequest [("User-Agent", "RED"); ("Accept", "*/*")].
Definition c5_resp :=
  mkResponse "200" [("last-modified", HInt 253402300800)] "md5-a" true None.

Lemma lm_modify_req_hdrs_bad_date_witness :
  utcfromtimestamp 253402300800 = None
  /\ modify_req_hdrs c5_req c5_resp = inr [("User-Agent", "RED"); ("Accept", "*/*")].
Proof.
  split; [reflexivity|].
  exact (lm_modify_req_hdrs_bad_date c5_req c5_resp 253402300800 eq_refl eq_refl).
Defined.

(** C10: whatever [modify_req_hdrs] returns starts with the base request's
    headers, unchanged and in order, followed by at most one
    [If-Modified-Since] pair. *)
Theorem lm_modify_req_hdrs_prefix (base_req : Request) (base_resp : Response)
  (hdrs : list (string * string))
  (Hr : modify_req_hdrs base_req base_resp = inr hdrs) :
  exists extra, hdrs = (req_headers base_req ++ extra)%list
  /\ (extra = [] \/ exists v, extra = [("If-Modified-Since", v)]).
Proof.
  revert Hr; unfold modify_req_hdrs.
  destruct (has_key (parsed_headers base_resp) "last-modified").
  - destruct (lookup (parsed_headers base_resp) "last-modified") as [[ts|]|];
      try discriminate.
    destruct (utcfromtimestamp ts) as [l_m|].
    + destruct (date_str l_m) as [s|]; [|discriminate].
      intro E; injection E as <-; exists [("If-Modified-Since", s)]; eauto.
    + intro E; injection E as <-; exists []; rewrite app_nil_r; auto.
  - intro E; injection E as <-; exists []; rewrite app_nil_r; auto.
Qed.

Lemma lm_modify_req_hdrs_prefix_witness :
  modify_req_hdrs c5_req c2_base
  = inr [("User-Agent", "RED"); ("Accept", "*/*");
         ("If-Modified-Since", "Thu, 01 Jan 1970 00:00:00 GMT")]
  /\ exists extra, [("User-Agent", "RED"); ("Accept", "*/*");
         ("If-Modified-Since", "Thu, 01 Jan 1970 00:00:00 GMT")]
       = (req_headers c5_req ++ extra)%list
     /\ (extra = [] \/ exists v, extra = [("If-Modified-Since", v)]).
Proof.
  split; [reflexivity|].
  exact (lm_modify_req_hdrs_prefix c5_req c2_base _ eq_refl).
Defined.

(** ** C3: the If-Modified-Since date *)

(** Month and day of [civil_from_days] as a function of the day of the
    400-year era. *)
Definition md_of_doe (doe : Z) : Z * Z :=
  let yoe := (doe - doe / 1460 + doe / 36524 - doe / 146096) / 365 in
  let doy := doe - (365 * yoe + yoe / 4 - yoe / 100) in
  let mp := (5 * doy + 2) / 153 in
  let d := doy - (153 * mp + 2) / 5 + 1 in
  let m := if mp <? 10 then mp + 3 else mp - 9 in
  (m, d).

Definition doe_of (z0 : Z) : Z := z0 + 719468 - (z0 + 719468) / 146097 * 146097.

Lemma civil_from_days_md (z0 : Z) :
  exists y, civil_from_days z0 = (y, fst (md_of_doe (doe_of z0)), snd (md_of_doe (doe_of z0))).
Proof. eexists; reflexivity. Qed.

Lemma doe_of_range (z0 : Z) : 0 <= doe_of z0 < 146097.
Proof.
  unfold doe_of.
  pose proof (Z.mod_pos_bound (z0 + 719468) 146097 ltac:(lia)).
  rewrite Z.mod_eq in H by lia; lia.
Qed.

(** [check_from f n i] tests [f] on [i, i+1, ..., i+n-1]. *)
Fixpoint check_from (f : Z -> bool) (n : nat) (i : Z) : bool :=
  match n with
  | O => true
  | S k => f i && check_from f k (i + 1)
  end.

Lemma check_from_spec (f : Z -> bool) (n : nat) (i : Z) :
  check_from f n i = true -> forall j, i <= j < i + Z.of_nat n -> f j = true.
Proof.
  revert i; induction n as [|k IH]; intros i H j Hj; simpl in *; [lia|].
  apply andb_true_iff in H; destruct H as [Hi Hk].
  destruct (Z.eq_dec j i) as [->|Hne]; [exact Hi|].
  apply (IH (i + 1) Hk); lia.
Qed.

Definition md_ok (doe : Z) : bool :=
  let '(m, d) := md_of_doe doe in (1 <=? m) && (m <=? 12) && (1 <=? d) && (d <=? 31).

Lemma md_of_doe_bounds (doe : Z) :
  0 <= doe < 146097 ->
  1 <= fst (md_of_doe doe) <= 12 /\ 1 <= snd (md_of_doe doe) <= 31.
Proof.
  intro H.
  assert (Hc : check_from md_ok (Z.to_nat 146097) 0 = true) by (vm_compute; reflexivity).
  pose proof (check_from_spec _ _ _ Hc doe ltac:(lia)) as Hok.
  unfold md_ok in Hok; destruct (md_of_doe doe) as [m d]; simpl.
  repeat rewrite andb_true_iff in Hok; rewrite !Z.leb_le in Hok; lia.
Qed.

Lemma utcfromtimestamp_bounds (ts : Z) (l_m : datetime) :
  utcfromtimestamp ts = Some l_m ->
  1 <= dt_month l_m <= 12 /\ 1 <= dt_day l_m <= 31 /\ 1 <= dt_year l_m <= 9999
  /\ 0 <= dt_hour l_m < 24 /\ 0 <= dt_minute l_m < 60 /\ 0 <= dt_second l_m < 60
  /\ 0 <= weekday l_m < 7.
Proof.
  unfold utcfromtimestamp.
  destruct (civil_from_days_md (ts / 86400)) as [y Hc].
  pose proof (md_of_doe_bounds _ (doe_of_range (ts / 86400))) as Hmd.
  destruct (md_of_doe (doe_of (ts / 86400))) as [m d]; simpl in Hc, Hmd.
  rewrite Hc.
  destruct ((1 <=? y) && (y <=? 9999)) eqn:Hy; [|discriminate].
  intro E; injection E as <-; unfold weekday; cbn [dt_month dt_day dt_year dt_hour
    dt_minute dt_second dt_days].
  apply andb_true_iff in Hy; rewrite !Z.leb_le in Hy.
  pose proof (Z.mod_pos_bound ts 86400 ltac:(lia)).
  pose proof (Z.mod_pos_bound (ts mod 86400) 3600 ltac:(lia)).
  pose proof (Z.mod_pos_bound (ts mod 86400) 60 ltac:(lia)).
  pose proof (Z.mod_pos_bound (ts / 86400 + 3) 7 ltac:(lia)).
  assert (0 <= ts mod 86400 / 3600 < 24)
    by (split; [apply Z.div_pos|apply Z.div_lt_upper_bound]; lia).
  assert (0 <= ts mod 86400 mod 3600 / 60 < 60)
    by (split; [apply Z.div_pos|apply Z.div_lt_upper_bound]; lia).
  lia.
Qed.

Lemma pct_d_2_length (n : Z) : 0 <= n < 100 -> String.length (pct_d 2 n) = 2%nat.
Proof.
  intro H.
  assert (Hc : check_from (fun k => Nat.eqb (String.length (pct_d 2 k)) 2) 100 0 = true)
    by (vm_compute; reflexivity).
  exact (proj1 (Nat.eqb_eq _ _) (check_from_spec _ _ _ Hc n ltac:(lia))).
Qed.

Lemma pct_d_4_length (n : Z) : 1 <= n <= 9999 -> String.length (pct_d 4 n) = 4%nat.
Proof.
  intro H.
  assert (Hc : check_from (fun k => Nat.eqb (String.length (pct_d 4 k)) 4)
                 (Z.to_nat 9999) 1 = true) by (vm_compute; reflexivity).
  exact (proj1 (Nat.eqb_eq _ _) (check_from_spec _ _ _ Hc n ltac:(lia))).
Qed.

Lemma string_length_app (s1 s2 : string) :
  String.length (s1 ++ s2) = (String.length s1 + String.length s2)%nat.
Proof. induction s1; simpl; auto. Qed.

Lemma weekday_name (l_m : datetime) :
  0 <= weekday l_m < 7 ->
  exists wd, py_index _weekdays (weekday l_m) = Some wd /\ In wd _weekdays
             /\ String.length wd = 3%nat.
Proof.
  intro H.
  assert (weekday l_m = 0 \/ weekday l_m = 1 \/ weekday l_m = 2 \/ weekday l_m = 3
          \/ weekday l_m = 4 \/ weekday l_m = 5 \/ weekday l_m = 6) as Hw by lia.
  repeat destruct Hw as [Hw|Hw]; rewrite Hw; eexists;
    (split; [reflexivity|split; [simpl; tauto|reflexivity]]).
Qed.

Lemma month_name (l_m : datetime) :
  1 <= dt_month l_m <= 12 ->
  exists mo, py_index _months (dt_month l_m) = Some (Some mo) /\ In (Some mo) _months
             /\ String.length mo = 3%nat.
Proof.
  intro H.
  assert (dt_month l_m = 1 \/ dt_month l_m = 2 \/ dt_month l_m = 3 \/ dt_month l_m = 4
          \/ dt_month l_m = 5 \/ dt_month l_m = 6 \/ dt_month l_m = 7 \/ dt_month l_m = 8
          \/ dt_month l_m = 9 \/ dt_month l_m = 10 \/ dt_month l_m = 11
          \/ dt_month l_m = 12) as Hm by lia.
  repeat destruct Hm as [Hm|Hm]; rewrite Hm; eexists;
    (split; [reflexivity|split; [simpl; tauto|reflexivity]]).
Qed.

(** C3: whenever the [last-modified] timestamp converts, [modify_req_hdrs]
    appends [If-Modified-Since] with the value
    [wd ", " dd " " mon " " yyyy " " hh ":" mm ":" ss " GMT"], where [wd] and
    [mon] are three-letter entries of the static [_weekdays] / [_months]
    tables selected by [weekday()] and the month, the day, hour, minute and
    second are zero-padded to exactly two digits and the year to exactly
    four; the whole value is 29 characters long. For the timestamp of
    2023-03-05T07:08:09 UTC the value is [Sun, 05 Mar 2023 07:08:09 GMT]. *)
Theorem lm_ims_date_format (base_req : Request) (base_resp : Response)
  (ts : Z) (l_m : datetime)
  (Hlm : lookup (parsed_headers base_resp) "last-modified" = Some (HInt ts))
  (Hdt : utcfromtimestamp ts = Some l_m) :
  (exists wd mo,
     let v := wd ++ ", " ++ pct_d 2 (dt_day l_m) ++ " " ++ mo ++ " "
              ++ pct_d 4 (dt_year l_m) ++ " " ++ pct_d 2 (dt_hour l_m) ++ ":"
              ++ pct_d 2 (dt_minute l_m) ++ ":" ++ pct_d 2 (dt_second l_m) ++ " GMT" in
     modify_req_hdrs base_req base_resp
       = inr (app (req_headers base_req) [("If-Modified-Since", v)])
     /\ py_index _weekdays (weekday l_m) = Some wd /\ In wd _weekdays
     /\ py_index _months (dt_month l_m) = Some (Some mo) /\ In (Some mo) _months
     /\ String.length wd = 3%nat /\ String.length mo = 3%nat
     /\ String.length (pct_d 2 (dt_day l_m)) = 2%nat
     /\ String.length (pct_d 4 (dt_year l_m)) = 4%nat
     /\ String.length (pct_d 2 (dt_hour l_m)) = 2%nat
     /\ String.length (pct_d 2 (dt_minute l_m)) = 2%nat
     /\ String.length (pct_d 2 (dt_second l_m)) = 2%nat
     /\ String.length v = 29%nat)
  /\ (ts = 1678000089 ->
      modify_req_hdrs base_req base_resp
      = inr (app (req_headers base_req)
               [("If-Modified-Since", "Sun, 05 Mar 2023 07:08:09 GMT")])).
Proof.
  destruct (utcfromtimestamp_bounds ts l_m Hdt)
    as (Hmo & Hd & Hy & Hh & Hmi & Hs & Hw).
  destruct (weekday_name l_m Hw) as (wd & Hwd & Hinw & Hlw).
  destruct (month_name l_m Hmo) as (mo & Hmn & Hinm & Hlm').
  assert (Hmod : modify_req_hdrs base_req base_resp
    = inr (app (req_headers base_req) [("If-Modified-Since",
             wd ++ ", " ++ pct_d 2 (dt_day l_m) ++ " " ++ mo ++ " "
             ++ pct_d 4 (dt_year l_m) ++ " " ++ pct_d 2 (dt_hour l_m) ++ ":"
             ++ pct_d 2 (dt_minute l_m) ++ ":" ++ pct_d 2 (dt_second l_m)
             ++ " GMT")])).
  { unfold modify_req_hdrs; rewrite (has_key_lookup _ _ _ Hlm), Hlm, Hdt.
    unfold date_str; rewrite Hwd, Hmn; reflexivity. }
  split.
  - exists wd, mo; cbv zeta.
    rewrite (pct_d_2_length (dt_day l_m)) by lia.
    rewrite (pct_d_4_length (dt_year l_m)) by lia.
    rewrite (pct_d_2_length (dt_hour l_m)) by lia.
    rewrite (pct_d_2_length (dt_minute l_m)) by lia.
    rewrite (pct_d_2_length (dt_second l_m)) by lia.
    repeat split; auto.
    rewrite !string_length_app, Hlw, Hlm'.
    rewrite (pct_d_2_length (dt_day l_m)) by lia.
    rewrite (pct_d_4_length (dt_year l_m)) by lia.
    rewrite (pct_d_2_length (dt_hour l_m)) by lia.
    rewrite (pct_d_2_length (dt_minute l_m)) by lia.
    rewrite (pct_d_2_length (dt_second l_m)) by lia.
    reflexivity.
  - intros ->.
    assert (E : utcfromtimestamp 1678000089 = Some (mkDatetime 2023 3 5 7 8 9 19421))
      by (vm_compute; reflexivity).
    assert (Es : date_str (mkDatetime 2023 3 5 7 8 9 19421)
                 = Some "Sun, 05 Mar 2023 07:08:09 GMT") by (vm_compute; reflexivity).
    unfold modify_req_hdrs; rewrite (has_key_lookup _ _ _ Hlm), Hlm, E, Es.
    reflexivity.
Qed.

Definition c3_resp :=
  mkResponse "200" [("last-modified", HInt 1678000089)] "md5-a" true None.

Lemma lm_ims_date_format_witness :
  utcfromtimestamp 1678000089 = Some (mkDatetime 2023 3 5 7 8 9 19421)
  /\ modify_req_hdrs c5_req c3_resp
     = inr [("User-Agent", "RED"); ("Accept", "*/*");
            ("If-Modified-Since", "Sun, 05 Mar 2023 07:08:09 GMT")].
Proof.
  split; [reflexivity|].
  exact (proj2 (lm_ims_date_format c5_req c3_resp 1678000089
                  (mkDatetime 2023 3 5 7 8 9 19421) eq_refl eq_refl) eq_refl).
Defined.

(** ** C8: note keys in the HTML formatters *)

Lemma string_app_assoc (a b c : string) : (a ++ b) ++ c = a ++ (b ++ c).
Proof. induction a; simpl; congruence. Qed.

(** [t] occurs in [s]. *)
Definition contains (s t : string) : Prop := exists pre post, s = pre ++ t ++ post.

Definition c8_note := mkNote "header-last-modified" IMS_304 [].

(** Two note objects with identical content, created in this order, living
    at addresses 140 and 7. *)
Definition c8_refs : list NoteRef := [(140, c8_note); (7, c8_note)].

(** C8 (counterexample): the keys [format_category] writes are the notes'
    object addresses, so two notes with identical content get different
    keys (no content hash) and a later note can get a smaller key (no
    creation counter). *)
Lemma format_category_key_identity_cex :
  snd (format_category_notes (fun s => s) (fun _ _ => "summary")
         (fun _ _ => "text") "en" VALIDATION c8_refs)
  = [("noteid-140", "text"); ("noteid-7", "text")]
  /\ ~ (exists key_of : Note -> string,
          forall r, In r c8_refs -> "noteid-" ++ id_str r = key_of (snd r))
  /\ 7 < 140.
Proof.
  split; [reflexivity|split; [|lia]].
  intros [key_of Hk].
  pose proof (Hk (140, c8_note) ltac:(simpl; tauto)) as H1.
  pose proof (Hk (7, c8_note) ltac:(simpl; tauto)) as H2.
  simpl in H1, H2; rewrite <- H1 in H2; discriminate H2.
Qed.

(** C8 (amended): the i-th note of the category rendered by
    [format_category] is keyed by [noteid-] followed by [id(note)], the
    note object's address, both in its list item's [data-name] and in its
    [hidden_text] entry; [format_problems] keys the i-th problem the same way
    with [msgid-]. *)
Theorem format_note_keys_are_ids (e_html : string -> string)
  (show_summary show_text : Note -> string -> string) (lang : string) :
  (forall (cat : category) (refs : list NoteRef) i r,
     nth_error (filter (fun r : NoteRef => category_eqb (nc_category (note_class (snd r))) cat)
                  refs) i = Some r ->
     (exists item, nth_error (fst (format_category_notes e_html show_summary
                                     show_text lang cat refs)) i = Some item
                   /\ contains item ("data-name='noteid-" ++ id_str r ++ "'"))
     /\ nth_error (snd (format_category_notes e_html show_summary show_text lang cat refs)) i
        = Some ("noteid-" ++ id_str r, show_text (snd r) lang))
  /\ (forall (refs : list NoteRef) i r,
     nth_error refs i = Some r ->
     (exists item, nth_error (fst (format_problems e_html show_summary show_text lang
                                     refs)) i = Some item
                   /\ contains item ("name='msgid-" ++ id_str r ++ "'"))
     /\ nth_error (snd (format_problems e_html show_summary show_text lang refs)) i
        = Some ("msgid-" ++ id_str r, show_text (snd r) lang)).
Proof.
  split.
  - intros cat refs i r H; unfold format_category_notes; cbv zeta; cbn [fst snd].
    rewrite !nth_error_map, H; cbn [option_map]; split; [|reflexivity].
    eexists; split; [reflexivity|].
    exists ("    <li class='" ++ level_str (nc_level (note_class (snd r)))
            ++ " note' data-subject='" ++ e_html (note_subject (snd r)) ++ "' "),
           (">
        <span>" ++ e_html (show_summary (snd r) lang) ++ "</span>
    </li>").
    rewrite !string_app_assoc; reflexivity.
  - intros refs i r H; unfold format_problems; cbn [fst snd].
    rewrite !nth_error_map, H; cbn [option_map]; split; [|reflexivity].
    eexists; split; [reflexivity|].
    exists ("    <li class='" ++ level_str (nc_level (note_class (snd r))) ++ " "
            ++ e_html (note_subject (snd r)) ++ " note' "),
           ("><span>" ++ e_html (show_summary (snd r) lang) ++ "</span></li>").
    rewrite !string_app_assoc; reflexivity.
Qed.

Lemma format_note_keys_are_ids_witness :
  nth_error (snd (format_category_notes (fun s => s) (fun _ _ => "summary")
                    (fun _ _ => "text") "en" VALIDATION c8_refs)) 1%nat
  = Some ("noteid-7", "text").
Proof.
  exact (proj2 (proj1 (format_note_keys_are_ids (fun s => s) (fun _ _ => "summary")
                         (fun _ _ => "text") "en") VALIDATION c8_refs 1%nat (7, c8_note)
                         eq_refl)).
Defined.

(** ** C9: header presenters *)

Definition is_upper (c : ascii) : bool :=
  let n := nat_of_ascii c in (65 <=? n)%nat && (n <=? 90)%nat.

Lemma ascii_lower_not_upper (c : ascii) : is_upper (ascii_lower c) = false.
Proof. destruct c as [[] [] [] [] [] [] [] []]; reflexivity. Qed.

(** The first character of a presenter token is never an upper-case letter. *)
Lemma token_head_not_upper (name : string) (c : ascii) (rest : string) :
  replace_dash (lower name) = String c rest -> is_upper c = false.
Proof.
  destruct name as [|a name]; simpl; [discriminate|].
  intro E; injection E as <- _.
  destruct (Ascii.eqb (ascii_lower a) "-"); [reflexivity|].
  apply ascii_lower_not_upper.
Qed.

Lemma eqb_upper_head (c0 c : ascii) (s rest : string) :
  is_upper c0 = true -> is_upper c = false -> String.eqb (String c0 s) (String c rest) = false.
Proof.
  intros H0 H; apply String.eqb_neq; intro E; injection E as -> _; congruence.
Qed.

Definition bare_uri_tokens : list string :=
  ["content_location"; "location"; "x_xrds_location"].

(** C9 (counterexample): the header [Formatter] is dispatched to the
    presenter's [formatter] attribute, which is no header handler, only
    because an attribute of that name exists; and giving the presenter an
    [etag] attribute changes how [ETag] is shown. *)
Lemma header_presenter_reflection_cex :
  Show HeaderPresenter_attrs "Formatter" = ViaAttr "formatter" AValue
  /\ Show HeaderPresenter_attrs "ETag" = Wrapped
  /\ Show (("etag", AMethod M_I) :: HeaderPresenter_attrs) "ETag"
     = ViaAttr "etag" (AMethod M_I).
Proof. repeat split; reflexivity. Qed.

(** C9 (amended): [Show] resolves a header by attribute lookup on the
    presenter: the name is lower-cased and its dashes turned into
    underscores; a token that does not start with an underscore and names an
    attribute of the presenter selects that attribute, anything else falls
    back to escaping and wrapping. With the attributes [HeaderPresenter]
    defines, content-location, location and x-xrds-location are shown by
    [BARE_URI] and every other header (other than one whose token is
    [formatter]) is escaped and wrapped. *)
Theorem header_presenter_lookup :
  (forall attrs name c rest,
     replace_dash (lower name) = String c rest -> c <> "_"%char ->
     Show attrs name = match getattr attrs (String c rest) with
                       | Some v => ViaAttr (String c rest) v
                       | None => Wrapped
                       end)
  /\ (forall name,
     replace_dash (lower name) <> "" -> replace_dash (lower name) <> "formatter" ->
     Show HeaderPresenter_attrs name
     = if existsb (fun t => String.eqb t (replace_dash (lower name))) bare_uri_tokens
       then ViaAttr (replace_dash (lower name)) (AMethod M_BARE_URI)
       else Wrapped).
Proof.
  split.
  - intros attrs name c rest Ht Hc; unfold Show; cbv zeta; rewrite Ht.
    apply Ascii.eqb_neq in Hc; rewrite Hc; reflexivity.
  - intros name Hne Hnf; unfold Show; cbv zeta.
    destruct (replace_dash (lower name)) as [|c rest] eqn:Ht; [contradiction|].
    pose proof (token_head_not_upper name c rest Ht) as Hup.
    destruct (Ascii.eqb c "_") eqn:Hu.
    + apply Ascii.eqb_eq in Hu; subst c; reflexivity.
    + cbn [negb]; unfold HeaderPresenter_attrs, bare_uri_tokens.
      cbn [getattr existsb].
      assert (Hf : String.eqb "formatter" (String c rest) = false)
        by (apply String.eqb_neq; congruence).
      rewrite Hf.
      rewrite (eqb_upper_head "S" c "how" rest eq_refl Hup).
      rewrite (eqb_upper_head "B" c "ARE_URI" rest eq_refl Hup).
      rewrite (eqb_upper_head "I" c "" rest eq_refl Hup).
      destruct (String.eqb "content_location" (String c rest)); [reflexivity|].
      destruct (String.eqb "location" (String c rest)); [reflexivity|].
      destruct (String.eqb "x_xrds_location" (String c rest)); reflexivity.
Qed.

Lemma header_presenter_lookup_witness :
  Show HeaderPresenter_attrs "Content-Location"
  = ViaAttr "content_location" (AMethod M_BARE_URI)
  /\ Show HeaderPresenter_attrs "Vary" = Wrapped.
Proof.
  split.
  - exact (proj2 header_presenter_lookup "Content-Location"
             ltac:(discriminate) ltac:(discriminate)).
  - exact (proj2 header_presenter_lookup "Vary"
             ltac:(discriminate) ltac:(discriminate)).
Defined.

(* ================================================================== *)
(** * The formatter's escaping helpers *)

(** Characters written by code, since a Rocq string literal cannot hold
    a double quote conveniently. *)
Definition dq : ascii := ascii_of_nat 34.
Definition bs : ascii := ascii_of_nat 92.
Definition lt_char : ascii := ascii_of_nat 60.
Definition nl_char : ascii := ascii_of_nat 10.
Definition cr_char : ascii := ascii_of_nat 13.

(** [s.replace(c, r)] for a one-character pattern [c]. *)
Fixpoint replace_char (c : ascii) (r : string) (s : string) : string :=
  match s with
  | EmptyString => EmptyString
  | String x s' =>
      if Ascii.eqb x c then r ++ replace_char c r s' else String x (replace_char c r s')
  end.

(** [e_js]: make a string safe inside a double-quoted JavaScript string. *)
Definition e_js (instr : string) : string :=
  if String.eqb instr "" then "" else
  let instr := replace_char bs (String bs (String bs "")) instr in
  let instr := replace_char dq (String bs (String dq "")) instr in
  let instr := replace_char lt_char (String bs "x3c") instr in
  instr.

(** Value of a JavaScript double-quoted string body, for the escapes [e_js]
    produces: backslash-backslash, backslash-quote and backslash-x-HH. An
    unescaped quote (which would end the literal), a line break, or another
    escape gives [None]. *)
Definition hex_val (c : ascii) : option nat :=
  let n := nat_of_ascii c in
  if (48 <=? n)%nat && (n <=? 57)%nat then Some (n - 48)%nat
  else if (65 <=? n)%nat && (n <=? 70)%nat then Some (n - 55)%nat
  else if (97 <=? n)%nat && (n <=? 102)%nat then Some (n - 87)%nat
  else None.

Fixpoint js_string_value (s : string) : option string :=
  match s with
  | EmptyString => Some EmptyString
  | String c s' =>
      if Ascii.eqb c bs then
        match s' with
        | String c2 s'' =>
            if Ascii.eqb c2 bs then option_map (String bs) (js_string_value s'')
            else if Ascii.eqb c2 dq then option_map (String dq) (js_string_value s'')
            else if Ascii.eqb c2 "x" then
              match s'' with
              | String h1 (String h2 s3) =>
                  match hex_val h1, hex_val h2 with
                  | Some a, Some b =>
                      option_map (String (ascii_of_nat (a * 16 + b))) (js_string_value s3)
                  | _, _ => None
                  end
              | _ => None
              end
            else None
        | EmptyString => None
        end
      else if Ascii.eqb c dq || Ascii.eqb c nl_char || Ascii.eqb c cr_char then None
      else option_map (String c) (js_string_value s')
  end.

(** [str] membership of a character. *)
Fixpoint in_str (c : ascii) (s : string) : bool :=
  match s with
  | EmptyString => false
  | String x s' => Ascii.eqb x c || in_str c s'
  end.

(** [urllib.quote] on a byte string: letters, digits, [_.-] and the [safe]
    characters are kept, every other byte becomes [%XX] (upper-case hex). *)
Definition always_safe : string :=
  "ABCDEFGHIJKLMNOPQRSTUVWXYZabcdefghijklmnopqrstuvwxyz0123456789_.-".

Definition hex_digit (n : nat) : ascii :=
  if (n <? 10)%nat then ascii_of_nat (48 + n) else ascii_of_nat (55 + n).

Definition quote_char (safe : string) (c : ascii) : string :=
  if in_str c always_safe || in_str c safe then String c ""
  else String "%" (String (hex_digit (nat_of_ascii c / 16))
                     (String (hex_digit (nat_of_ascii c mod 16)) "")).

Fixpoint urlquote (s : string) (safe : string) : string :=
  match s with
  | EmptyString => EmptyString
  | String c s' => quote_char safe c ++ urlquote s' safe
  end.

(** [unicode_url_escape(url, safe)]: [urlquote(url, safe + r'%~')]. *)
Definition unicode_url_escape (url safe : string) : string :=
  urlquote url (safe ++ "%~").

Definition e_query_arg (s : string) : string := unicode_url_escape s "!$'()*+,:@/?".

(** [urllib.unquote]: [%XX] with two hex digits is decoded, everything else
    kept. *)
Fixpoint urlunquote (s : string) : string :=
  match s with
  | EmptyString => EmptyString
  | String c s1 =>
      if Ascii.eqb c "%" then
        match s1 with
        | String h1 (String h2 s') =>
            match hex_val h1, hex_val h2 with
            | Some a, Some b => String (ascii_of_nat (a * 16 + b)) (urlunquote s')
            | _, _ => String c (urlunquote s1)
            end
        | _ => String c (urlunquote s1)
        end
      else String c (urlunquote s1)
  end.

(** ** Properties of the escaping helpers *)

Lemma replace_char_app (c : ascii) (r a b : string) :
  replace_char c r (a ++ b) = replace_char c r a ++ replace_char c r b.
Proof.
  induction a as [|x a IH]; simpl; [reflexivity|].
  rewrite IH; destruct (Ascii.eqb x c); [symmetry; apply string_app_assoc|reflexivity].
Qed.

Lemma in_str_app (c : ascii) (a b : string) :
  in_str c (a ++ b) = in_str c a || in_str c b.
Proof. induction a as [|x a IH]; simpl; [reflexivity|]; rewrite IH, orb_assoc; reflexivity. Qed.

(** [e_js] as a per-character map. *)
Definition js_esc (c : ascii) : string :=
  if Ascii.eqb c bs then String bs (String bs "")
  else if Ascii.eqb c dq then String bs (String dq "")
  else if Ascii.eqb c lt_char then String bs "x3c"
  else String c "".

Fixpoint js_esc_all (s : string) : string :=
  match s with
  | EmptyString => EmptyString
  | String c s' => js_esc c ++ js_esc_all s'
  end.

Lemma e_js_esc_all (s : string) : e_js s = js_esc_all s.
Proof.
  unfold e_js; destruct (String.eqb s "") eqn:E.
  { apply String.eqb_eq in E; subst; reflexivity. }
  clear E; induction s as [|c s IH]; [reflexivity|].
  cbn [js_esc_all].
  replace (replace_char bs (String bs (String bs "")) (String c s))
    with ((if Ascii.eqb c bs then String bs (String bs "") else String c "")
          ++ replace_char bs (String bs (String bs "")) s)
    by (simpl; destruct (Ascii.eqb c bs); reflexivity).
  rewrite !replace_char_app, IH; f_equal.
  unfold js_esc.
  destruct (Ascii.eqb_spec c bs) as [->|Hb]; [reflexivity|].
  destruct (Ascii.eqb_spec c dq) as [->|Hd]; [reflexivity|].
  destruct (Ascii.eqb_spec c lt_char) as [->|Hl]; [reflexivity|].
  simpl; apply Ascii.eqb_neq in Hd, Hl; rewrite Hd; simpl; rewrite Hl; reflexivity.
Qed.

Lemma js_esc_all_no_lt (s : string) : in_str lt_char (js_esc_all s) = false.
Proof.
  induction s as [|c s IH]; [reflexivity|].
  cbn [js_esc_all]; rewrite in_str_app, IH, orb_false_r.
  unfold js_esc.
  destruct (Ascii.eqb_spec c bs) as [->|Hb]; [reflexivity|].
  destruct (Ascii.eqb_spec c dq) as [->|Hd]; [reflexivity|].
  destruct (Ascii.eqb_spec c lt_char) as [->|Hl]; [reflexivity|].
  simpl; rewrite orb_false_r; apply Ascii.eqb_neq; auto.
Qed.

(** X1: the output of [e_js] never contains [<], so it can never close a
    surrounding script element. *)
Theorem e_js_no_lt (s : string) : in_str lt_char (e_js s) = false.
Proof. rewrite e_js_esc_all; apply js_esc_all_no_lt. Qed.

(** X2: for a string without line breaks, the output of [e_js] placed
    between double quotes is a JavaScript string literal whose value is the
    original string. *)
Theorem e_js_roundtrip (s : string)
  (Hnl : in_str nl_char s = false) (Hcr : in_str cr_char s = false) :
  js_string_value (e_js s) = Some s.
Proof.
  rewrite e_js_esc_all.
  induction s as [|c s IH]; [reflexivity|].
  simpl in Hnl, Hcr; apply orb_false_iff in Hnl, Hcr.
  destruct Hnl as [Hn Hnl]; destruct Hcr as [Hc Hcr].
  cbn [js_esc_all]; unfold js_esc.
  destruct (Ascii.eqb_spec c bs) as [->|Hb].
  { simpl; rewrite IH by assumption; reflexivity. }
  destruct (Ascii.eqb_spec c dq) as [->|Hd].
  { simpl; rewrite IH by assumption; reflexivity. }
  destruct (Ascii.eqb_spec c lt_char) as [->|Hl].
  { simpl; rewrite IH by assumption; reflexivity. }
  cbn [String.append js_string_value].
  apply Ascii.eqb_neq in Hb, Hd; rewrite Hb, Hd.
  rewrite Hn, Hc; cbn [orb].
  rewrite IH by assumption; reflexivity.
Qed.

Lemma e_js_roundtrip_witness :
  in_str nl_char "a<b" = false /\ in_str cr_char "a<b" = false
  /\ js_string_value (e_js "a<b") = Some "a<b".
Proof.
  split; [reflexivity|split; [reflexivity|]].
  exact (e_js_roundtrip "a<b" eq_refl eq_refl).
Defined.

(** Every character of [s] occurs in [t]. *)
Fixpoint all_in (s t : string) : bool :=
  match s with
  | EmptyString => true
  | String c s' => in_str c t && all_in s' t
  end.

(** The characters [e_query_arg] may emit. *)
Definition query_arg_chars : string := always_safe ++ "!$'()*+,:@/?" ++ "%~".

Lemma all_in_app (a b t : string) : all_in (a ++ b) t = all_in a t && all_in b t.
Proof. induction a as [|x a IH]; simpl; [reflexivity|]; rewrite IH, andb_assoc; reflexivity. Qed.

Lemma all_in_not_in (s t : string) (c : ascii) :
  all_in s t = true -> in_str c t = false -> in_str c s = false.
Proof.
  induction s as [|x s IH]; simpl; [reflexivity|].
  intros H Hc; apply andb_true_iff in H; destruct H as [Hx Hs].
  rewrite (IH Hs Hc), orb_false_r.
  destruct (Ascii.eqb_spec x c) as [->|]; [congruence|reflexivity].
Qed.

Lemma urlquote_cons (c : ascii) (s sf : string) :
  urlquote (String c s) sf = quote_char sf c ++ urlquote s sf.
Proof. reflexivity. Qed.

Lemma quote_char_chars (c : ascii) :
  all_in (quote_char ("!$'()*+,:@/?" ++ "%~") c) query_arg_chars = true.
Proof. destruct c as [[] [] [] [] [] [] [] []]; reflexivity. Qed.

Lemma e_query_arg_chars (s : string) : all_in (e_query_arg s) query_arg_chars = true.
Proof.
  unfold e_query_arg, unicode_url_escape.
  induction s as [|c s IH]; [reflexivity|].
  rewrite urlquote_cons, all_in_app, IH, quote_char_chars; reflexivity.
Qed.

(** X3: [e_query_arg] only emits letters, digits and [_.-!$'()*+,:@/?%~];
    in particular never [&], [=], [#] or a space, so a value it escapes
    cannot split or end a query-string parameter. *)
Theorem e_query_arg_charset (s : string) :
  all_in (e_query_arg s) query_arg_chars = true
  /\ in_str "&" (e_query_arg s) = false /\ in_str "=" (e_query_arg s) = false
  /\ in_str "#" (e_query_arg s) = false /\ in_str " " (e_query_arg s) = false.
Proof.
  pose proof (e_query_arg_chars s) as H.
  repeat split; [exact H| | | |]; apply (all_in_not_in _ _ _ H); reflexivity.
Qed.

Lemma urlquote_all_safe (s : string) :
  all_in s query_arg_chars = true -> urlquote s ("!$'()*+,:@/?" ++ "%~") = s.
Proof.
  induction s as [|c s IH]; [reflexivity|].
  cbn [all_in]; intro H; apply andb_true_iff in H; destruct H as [Hc Hs].
  rewrite urlquote_cons, (IH Hs); unfold quote_char.
  replace (in_str c always_safe || in_str c ("!$'()*+,:@/?" ++ "%~")) with true;
    [reflexivity|].
  unfold query_arg_chars in Hc; rewrite in_str_app in Hc; exact (eq_sym Hc).
Qed.

(** X4: [e_query_arg] is idempotent: what it has escaped (including any
    [%XX] already present) is left alone by a second application. *)
Theorem e_query_arg_idempotent (s : string) :
  e_query_arg (e_query_arg s) = e_query_arg s.
Proof.
  unfold e_query_arg at 1, unicode_url_escape.
  apply urlquote_all_safe, e_query_arg_chars.
Qed.

Lemma urlunquote_quote_char (c : ascii) (rest : string) :
  c <> "%"%char ->
  urlunquote (quote_char ("!$'()*+,:@/?" ++ "%~") c ++ rest) = String c (urlunquote rest).
Proof.
  destruct c as [[] [] [] [] [] [] [] []]; intro H;
    try reflexivity; exfalso; apply H; reflexivity.
Qed.

(** X5: for a string without [%], unquoting the output of [e_query_arg]
    gives the string back. (A [%] is deliberately never escaped, so
    [%XX] sequences already present are decoded.) *)
Theorem e_query_arg_unquote (s : string) (Hp : in_str "%" s = false) :
  urlunquote (e_query_arg s) = s.
Proof.
  unfold e_query_arg, unicode_url_escape.
  induction s as [|c s IH]; [reflexivity|].
  simpl in Hp; apply orb_false_iff in Hp; destruct Hp as [Hc Hs].
  rewrite urlquote_cons, urlunquote_quote_char, IH by (auto; apply Ascii.eqb_neq; auto).
  reflexivity.
Qed.

Lemma e_query_arg_unquote_witness :
  in_str "%" "a b&c=d" = false /\ e_query_arg "a b&c=d" = "a%20b%26c%3Dd"
  /\ urlunquote (e_query_arg "a b&c=d") = "a b&c=d".
Proof.
  split; [reflexivity|split; [reflexivity|]].
  exact (e_query_arg_unquote "a b&c=d" eq_refl).
Defined.

(* ================================================================== *)
(** * BaseHtmlFormatter.req_qs *)

(** [sep.join(parts)]. *)
Fixpoint join (sep : string) (parts : list string) : string :=
  match parts with
  | [] => ""
  | [p] => p
  | p :: ps => p ++ sep ++ join sep ps
  end.

(** [s.split(c)] for a one-character separator. *)
Fixpoint split_on (c : ascii) (s : string) : list string :=
  match s with
  | EmptyString => [""]
  | String x s' =>
      let r := split_on c s' in
      if Ascii.eqb x c then "" :: r
      else match r with
           | h :: t => String x h :: t
           | [] => [String x ""]
           end
  end.

(** Python truthiness of an optional string argument. *)
Definition truthy (o : option string) : option string :=
  match o with
  | Some s => if String.eqb s "" then None else Some s
  | None => None
  end.

(** What [req_qs] reads from the formatter: the resource's request URI and
    headers, [kw['test_id']] and [resource.check_name]. *)
Record QsContext := mkQsContext {
  qs_uri : string;
  qs_req_headers : list (string * string);
  qs_test_id : option string;
  qs_check_name : option string
}.

Definition hdr_param (kv : string * string) : string :=
  "req_hdr=" ++ e_query_arg (fst kv) ++ "%3A" ++ e_query_arg (snd kv).

Section ReqQs.

(** [urljoin] of the standard library. *)
Variable urljoin : string -> string -> string.

(** The request-header loop of [req_qs], skipping [Referer] when [referer]. *)
Fixpoint req_hdr_params (referer : bool) (hdrs : list (string * string)) : list string :=
  match hdrs with
  | [] => []
  | (k, v) :: hs =>
      if referer && String.eqb (lower k) "referer" then req_hdr_params referer hs
      else hdr_param (k, v) :: req_hdr_params referer hs
  end.

(** The list [out] that [req_qs] joins with [&]. *)
Definition req_qs_out (ctx : QsContext) (link check_name res_format : option string)
  (use_stored referer : bool) : list string :=
  let uri := qs_uri ctx in
  let first :=
    match (if use_stored then truthy (qs_test_id ctx) else None) with
    | Some t => "id=" ++ e_query_arg t
    | None =>
        "uri=" ++ e_query_arg (urljoin uri (match truthy link with Some l => l | None => "" end))
    end in
  let refp := if referer then ["req_hdr=Referer%3A" ++ e_query_arg uri] else [] in
  let chk :=
    match truthy check_name with
    | Some c => ["check_name=" ++ e_query_arg c]
    | None =>
        match qs_check_name ctx with
        | Some c => ["check_name=" ++ e_query_arg c]
        | None => []
        end
    end in
  let fmt := match truthy res_format with Some f => ["format=" ++ e_query_arg f] | None => [] end in
  (first :: req_hdr_params referer (qs_req_headers ctx) ++ refp ++ chk ++ fmt)%list.

Definition req_qs (ctx : QsContext) (link check_name res_format : option string)
  (use_stored referer : bool) : string :=
  join "&" (req_qs_out ctx link check_name res_format use_stored referer).

End ReqQs.

Lemma string_app_nil_r (s : string) : s ++ "" = s.
Proof. induction s as [|c s IH]; simpl; [reflexivity|now rewrite IH]. Qed.

Lemma split_on_app (c : ascii) (a rest h : string) (t : list string) :
  in_str c a = false -> split_on c rest = h :: t ->
  split_on c (a ++ rest) = (a ++ h) :: t.
Proof.
  intros Ha Hr; induction a as [|x a IH]; [exact Hr|].
  cbn [in_str] in Ha; apply orb_false_iff in Ha; destruct Ha as [Hx Ha].
  cbn [append split_on]; rewrite (IH Ha), Hx; reflexivity.
Qed.

Lemma split_on_sep (c : ascii) (rest : string) :
  split_on c (String c rest) = "" :: split_on c rest.
Proof. cbn [split_on]; now rewrite Ascii.eqb_refl. Qed.

Lemma split_on_join (c : ascii) (parts : list string) :
  parts <> [] -> Forall (fun p => in_str c p = false) parts ->
  split_on c (join (String c "") parts) = parts.
Proof.
  intros Hne Hall; induction Hall as [|p ps Hp Hps IH]; [congruence|].
  destruct ps as [|q ps].
  - cbn [join]; rewrite <- (string_app_nil_r p) at 1.
    rewrite (split_on_app c p "" "" [] Hp eq_refl), string_app_nil_r; reflexivity.
  - change (join (String c "") (p :: q :: ps))
      with (p ++ String c "" ++ join (String c "") (q :: ps)).
    cbn [append]; rewrite (split_on_app c p _ "" (q :: ps) Hp).
    + now rewrite string_app_nil_r.
    + rewrite split_on_sep, IH by discriminate; reflexivity.
Qed.

Lemma e_query_arg_no_amp (s : string) : in_str "&" (e_query_arg s) = false.
Proof. apply (all_in_not_in _ query_arg_chars); [apply e_query_arg_chars|reflexivity]. Qed.

Ltac no_amp :=
  cbv beta zeta; repeat rewrite in_str_app; rewrite ?e_query_arg_no_amp; reflexivity.

Ltac forall_no_amp :=
  repeat first [apply Forall_nil | apply Forall_cons; [no_amp|]].

Lemma req_hdr_params_no_amp (referer : bool) (hdrs : list (string * string)) :
  Forall (fun p => in_str "&" p = false) (req_hdr_params referer hdrs).
Proof.
  induction hdrs as [|[k v] hs IH]; cbn [req_hdr_params]; [constructor|].
  destruct (referer && String.eqb (lower k) "referer"); [exact IH|].
  constructor; [unfold hdr_param; cbn [fst snd]; no_amp|exact IH].
Qed.

Lemma req_qs_split_out (urljoin : string -> string -> string) (ctx : QsContext)
  (link check_name res_format : option string) (use_stored referer : bool) :
  split_on "&" (req_qs urljoin ctx link check_name res_format use_stored referer)
  = req_qs_out urljoin ctx link check_name res_format use_stored referer.
Proof.
  apply split_on_join; [unfold req_qs_out; discriminate|].
  unfold req_qs_out; constructor.
  - destruct (if use_stored then truthy (qs_test_id ctx) else None); no_amp.
  - apply Forall_app; split; [apply req_hdr_params_no_amp|].
    apply Forall_app; split; [destruct referer; forall_no_amp|].
    apply Forall_app; split.
    + destruct (truthy check_name); [|destruct (qs_check_name ctx)]; forall_no_amp.
    + destruct (truthy res_format); forall_no_amp.
Qed.

(** X6: the query string built by [req_qs] splits on [&] back into exactly
    the parameters it was joined from, in order: no header name or value,
    URI, check name or format can inject a separator. *)
Theorem req_qs_split (urljoin : string -> string -> string) (ctx : QsContext)
  (link check_name res_format : option string) (use_stored referer : bool) :
  split_on "&" (req_qs urljoin ctx link check_name res_format use_stored referer)
  = req_qs_out urljoin ctx link check_name res_format use_stored referer
  /\ Forall (fun p => in_str "&" p = false)
       (req_qs_out urljoin ctx link check_name res_format use_stored referer).
Proof.
  split; [apply req_qs_split_out|].
  unfold req_qs_out; constructor.
  - destruct (if use_stored then truthy (qs_test_id ctx) else None); no_amp.
  - apply Forall_app; split; [apply req_hdr_params_no_amp|].
    apply Forall_app; split; [destruct referer; forall_no_amp|].
    apply Forall_app; split.
    + destruct (truthy check_name); [|destruct (qs_check_name ctx)]; forall_no_amp.
    + destruct (truthy res_format); forall_no_amp.
Qed.

Lemma req_hdr_params_true (hdrs : list (string * string)) :
  req_hdr_params true hdrs
  = map hdr_param (filter (fun kv => negb (String.eqb (lower (fst kv)) "referer")) hdrs).
Proof.
  induction hdrs as [|[k v] hs IH]; [reflexivity|].
  cbn [req_hdr_params filter fst andb].
  destruct (String.eqb (lower k) "referer"); cbn [negb map]; now rewrite IH.
Qed.

Lemma req_hdr_params_false (hdrs : list (string * string)) :
  req_hdr_params false hdrs = map hdr_param hdrs.
Proof.
  induction hdrs as [|[k v] hs IH]; [reflexivity|].
  cbn [req_hdr_params andb map]; now rewrite IH.
Qed.

Lemma prefix_empty (s : string) : String.prefix "" s = true.
Proof. now destruct s. Qed.

Lemma hdr_param_prefix (kv : string * string) : String.prefix "req_hdr=" (hdr_param kv) = true.
Proof. unfold hdr_param; cbn; rewrite ?prefix_empty; reflexivity. Qed.

Lemma filter_map_hdr_param (l : list (string * string)) :
  filter (String.prefix "req_hdr=") (map hdr_param l) = map hdr_param l.
Proof.
  induction l as [|kv l IH]; [reflexivity|].
  cbn [map filter]; now rewrite hdr_param_prefix, IH.
Qed.

Lemma prefix_id (e : string) : String.prefix "req_hdr=" ("id=" ++ e) = false.
Proof. reflexivity. Qed.
Lemma prefix_uri (e : string) : String.prefix "req_hdr=" ("uri=" ++ e) = false.
Proof. reflexivity. Qed.
Lemma prefix_check_name (e : string) : String.prefix "req_hdr=" ("check_name=" ++ e) = false.
Proof. reflexivity. Qed.
Lemma prefix_format (e : string) : String.prefix "req_hdr=" ("format=" ++ e) = false.
Proof. reflexivity. Qed.
Lemma prefix_referer (e : string) : String.prefix "req_hdr=" ("req_hdr=Referer%3A" ++ e) = true.
Proof. cbn; rewrite ?prefix_empty; reflexivity. Qed.

(** X7: the [req_hdr] parameters of the query string. With [referer] set,
    they are the request headers whose lower-cased name is not [referer], in
    order, followed by one [Referer] parameter carrying the resource's own
    URI; without it, they are all the request headers, in order. *)
Theorem req_qs_req_hdrs (urljoin : string -> string -> string) (ctx : QsContext)
  (link check_name res_format : option string) (use_stored : bool) :
  filter (String.prefix "req_hdr=")
    (split_on "&" (req_qs urljoin ctx link check_name res_format use_stored true))
  = app (map hdr_param
       (filter (fun kv => negb (String.eqb (lower (fst kv)) "referer")) (qs_req_headers ctx)))
     ["req_hdr=Referer%3A" ++ e_query_arg (qs_uri ctx)]
  /\ filter (String.prefix "req_hdr=")
    (split_on "&" (req_qs urljoin ctx link check_name res_format use_stored false))
  = map hdr_param (qs_req_headers ctx).
Proof.
  rewrite !req_qs_split_out; unfold req_qs_out.
  rewrite req_hdr_params_true, req_hdr_params_false.
  split;
    (destruct (if use_stored then truthy (qs_test_id ctx) else None);
     cbn [filter]; rewrite ?prefix_id, ?prefix_uri, !filter_app, filter_map_hdr_param;
     destruct (truthy check_name); destruct (qs_check_name ctx);
     destruct (truthy res_format); cbn [filter];
     rewrite ?prefix_referer, ?prefix_check_name, ?prefix_format, ?app_nil_r;
     reflexivity).
Qed.

(* ================================================================== *)
(** * SingleEntryHtmlFormatter.format_response and format_header *)

Section HeaderFormatter.

Variable e_html : string -> string.
(** [HeaderProcessor.find_header_handler(name).description], [None] when
    the handler has none. *)
Variable description : string -> option string.
(** [markdown(header_desc % {'field_name': name}, output_format="html5")]. *)
Variable render_desc : string -> string -> string.
(** [self.header_presenter.Show(name, value)]. *)
Variable show : string -> string -> string.

(** The span that [format_header] returns. *)
Definition hdr_span (name value : string) (offset : Z) : string :=
  "    <span data-offset='" ++ dec offset ++ "' data-name='" ++ e_html (lower name)
  ++ "' class='hdr'>" ++ e_html name ++ ":" ++ show name value ++ "</span>".

(** [format_header]: the span, and [self.hidden_text] afterwards. *)
Definition format_header (hidden_text : list (string * string)) (name value : string)
  (offset : Z) : string * list (string * string) :=
  let token_name := "header-" ++ lower name in
  let hidden_text' :=
    match truthy (description name) with
    | Some header_desc =>
        if existsb (fun i => String.eqb (fst i) token_name) hidden_text then hidden_text
        else app hidden_text [(token_name, render_desc header_desc name)]
    | None => hidden_text
    end in
  (hdr_span name value offset, hidden_text').

(** The header loop of [format_response]; [offset] is the value before the
    loop's increment. *)
Fixpoint format_headers (hidden_text : list (string * string))
  (hdrs : list (string * string)) (offset : Z) : list string * list (string * string) :=
  match hdrs with
  | [] => ([], hidden_text)
  | (name, value) :: hs =>
      let offset' := offset + 1 in
      let r := format_header hidden_text name value offset' in
      let rest := format_headers (snd r) hs offset' in
      (fst r :: fst rest, snd rest)
  end.

Definition format_response (hidden_text : list (string * string))
  (version status_code status_phrase : string) (hdrs : list (string * string))
  : string * list (string * string) :=
  let r := format_headers hidden_text hdrs 0 in
  ("    <span class='status'>HTTP/" ++ e_html version ++ " " ++ e_html status_code ++ " "
   ++ e_html status_phrase ++ "</span>" ++ String nl_char "" ++ join (String nl_char "") (fst r),
   snd r).

End HeaderFormatter.

(* ================================================================== *)
(** * TableHtmlFormatter.format_droid: problem numbering *)

Section Problems.

(** Notes compared with Python's [==] (identity unless [__eq__] says more). *)
Variable A : Type.
Variable eq_dec : forall x y : A, {x = y} + {x <> y}.
Variable level_of : A -> level.

(** [x in l]. *)
Definition mem (x : A) (l : list A) : bool :=
  existsb (fun y => if eq_dec y x then true else false) l.

(** [l.index(x)]; [None] is the [ValueError] raised when [x] is absent. *)
Fixpoint list_index (l : list A) (x : A) : option nat :=
  match l with
  | [] => None
  | y :: l' => if eq_dec y x then Some 0%nat else option_map S (list_index l' x)
  end.

(** [m.level in [levels.WARN, levels.BAD]]. *)
Definition is_problem (m : A) : bool :=
  match level_of m with WARN | BAD => true | _ => false end.

(** The [for problem in problems] loop: [self.problems] and [pr_enum]. *)
Fixpoint droid_problem_loop (self_problems : list A) (pr_enum : list nat)
  (problems : list A) : option (list A * list nat) :=
  match problems with
  | [] => Some (self_problems, pr_enum)
  | problem :: ps =>
      let sp := if mem problem self_problems then self_problems
                else app self_problems [problem] in
      match list_index sp problem with
      | None => None
      | Some i => droid_problem_loop sp (app pr_enum [i]) ps
      end
  end.

Definition droid_problems (self_problems : list A) (resource_notes : list A)
  : option (list A * list nat) :=
  droid_problem_loop self_problems [] (filter is_problem resource_notes).

End Problems.

(* ================================================================== *)
(** * format_yes_no *)

Definition static_root : string := "static".

Definition dq_s : string := String dq "".

(** [format_yes_no] on [True], [False] and [None]. *)
Definition format_yes_no (value : option bool) : string :=
  let icon_tpl (icon alt : string) :=
    "<td><img src=" ++ dq_s ++ static_root ++ "/icon/" ++ icon ++ dq_s ++ " alt=" ++ dq_s
    ++ alt ++ dq_s ++ "/></td>" in
  match value with
  | Some true => icon_tpl "accept1.png" "yes"
  | Some false => icon_tpl "remove-16.png" "no"
  | None => icon_tpl "help1.png" "unknown"
  end.

Lemma nodup_snoc {B : Type} (l : list B) (x : B) :
  NoDup l -> ~ In x l -> NoDup (app l [x]).
Proof.
  intros Hl Hx; apply NoDup_app; [exact Hl|repeat constructor; auto|].
  intros a Ha [<-|[]]; exact (Hx Ha).
Qed.

Lemma existsb_fst_false (t : string) (h : list (string * string)) :
  existsb (fun i => String.eqb (fst i) t) h = false -> ~ In t (map fst h).
Proof.
  intros E Hin; apply in_map_iff in Hin as [[k v] [Hk Hin]]; cbn in Hk; subst k.
  assert (existsb (fun i => String.eqb (fst i) t) h = true) as E'
    by (apply existsb_exists; exists (t, v); split; [exact Hin|apply String.eqb_refl]).
  congruence.
Qed.

Lemma existsb_fst_true (t : string) (h : list (string * string)) :
  existsb (fun i => String.eqb (fst i) t) h = true -> In t (map fst h).
Proof.
  intros E; apply existsb_exists in E as [[k v] [Hin Hk]].
  apply String.eqb_eq in Hk; cbn in Hk; subst k.
  apply in_map_iff; exists (t, v); auto.
Qed.

Lemma format_header_hidden (e_html : string -> string) (description : string -> option string)
  (render_desc : string -> string -> string) (show : string -> string -> string)
  (h : list (string * string)) (name value : string) (offset : Z) :
  NoDup (map fst h) ->
  let h' := snd (format_header e_html description render_desc show h name value offset) in
  NoDup (map fst h')
  /\ (exists ext, h' = app h ext /\ Forall (fun kv => fst kv = "header-" ++ lower name) ext)
  /\ (truthy (description name) <> None -> In ("header-" ++ lower name) (map fst h')).
Proof.
  intros Hnd; unfold format_header; cbn [snd].
  destruct (truthy (description name)) as [d|]; [|split; [exact Hnd|split; [exists []; rewrite app_nil_r; auto|congruence]]].
  destruct (existsb (fun i => String.eqb (fst i) ("header-" ++ lower name)) h) eqn:E.
  - split; [exact Hnd|split; [exists []; rewrite app_nil_r; auto|]].
    intros _; now apply existsb_fst_true.
  - split; [|split].
    + rewrite map_app; apply nodup_snoc; [exact Hnd|now apply existsb_fst_false].
    + eexists; split; [reflexivity|repeat constructor].
    + intros _; rewrite map_app; apply in_or_app; right; left; reflexivity.
Qed.

Lemma format_headers_hidden (e_html : string -> string) (description : string -> option string)
  (render_desc : string -> string -> string) (show : string -> string -> string)
  (hdrs : list (string * string)) :
  forall (h : list (string * string)) (offset : Z),
  NoDup (map fst h) ->
  let h' := snd (format_headers e_html description render_desc show h hdrs offset) in
  NoDup (map fst h')
  /\ (exists ext, h' = app h ext
        /\ Forall (fun kv => exists n v, In (n, v) hdrs /\ fst kv = "header-" ++ lower n) ext)
  /\ (forall n v, In (n, v) hdrs -> truthy (description n) <> None ->
        In ("header-" ++ lower n) (map fst h')).
Proof.
  induction hdrs as [|[n v] hs IH]; intros h offset Hnd; cbn [format_headers snd].
  - split; [exact Hnd|split; [exists []; rewrite app_nil_r; auto|intros ? ? []]].
  - destruct (format_header_hidden e_html description render_desc show h n v (offset + 1) Hnd)
      as (Hnd1 & (ext1 & E1 & F1) & Hin1).
    destruct (IH _ (offset + 1) Hnd1) as (Hnd2 & (ext2 & E2 & F2) & Hin2).
    split; [exact Hnd2|split].
    + rewrite E2, E1; exists (app ext1 ext2); split; [now rewrite app_assoc|].
      apply Forall_app; split.
      * eapply Forall_impl; [|exact F1]; intros kv Hkv; exists n, v; split; [left; reflexivity|exact Hkv].
      * eapply Forall_impl; [|exact F2]; intros kv (n' & v' & Hi & Hkv);
          exists n', v'; split; [right; exact Hi|exact Hkv].
    + intros n' v' [Heq|Hi] Hd.
      * injection Heq as <- <-; rewrite E2, map_app; apply in_or_app; left; exact (Hin1 Hd).
      * exact (Hin2 n' v' Hi Hd).
Qed.

(** X8: [format_response] keeps the keys of [self.hidden_text] distinct: it
    only appends, one entry per distinct lower-cased header name with a
    description, and afterwards every described header has its
    [header-<name>] entry. *)
Theorem format_response_hidden_text (e_html : string -> string)
  (description : string -> option string) (render_desc : string -> string -> string)
  (show : string -> string -> string) (hidden_text : list (string * string))
  (version status_code status_phrase : string) (hdrs : list (string * string))
  (Hnd : NoDup (map fst hidden_text)) :
  NoDup (map fst (snd (format_response e_html description render_desc show hidden_text
                         version status_code status_phrase hdrs)))
  /\ (exists ext,
        snd (format_response e_html description render_desc show hidden_text
               version status_code status_phrase hdrs) = app hidden_text ext
        /\ Forall (fun kv => exists n v, In (n, v) hdrs /\ fst kv = "header-" ++ lower n) ext)
  /\ (forall n v, In (n, v) hdrs -> truthy (description n) <> None ->
        In ("header-" ++ lower n)
          (map fst (snd (format_response e_html description render_desc show hidden_text
                           version status_code status_phrase hdrs)))).
Proof.
  exact (format_headers_hidden e_html description render_desc show hdrs hidden_text 0 Hnd).
Qed.

Lemma format_response_hidden_text_witness :
  NoDup (map fst [("noteid-1", "x")])
  /\ NoDup (map fst (snd (format_response (fun s => s)
       (fun n => if String.eqb n "ETag" then Some "an etag" else None)
       (fun d _ => d) (fun _ v => v) [("noteid-1", "x")] "1.1" "200" "OK"
       [("ETag", "a"); ("Date", "b"); ("ETag", "c")])))
  /\ snd (format_response (fun s => s)
       (fun n => if String.eqb n "ETag" then Some "an etag" else None)
       (fun d _ => d) (fun _ v => v) [("noteid-1", "x")] "1.1" "200" "OK"
       [("ETag", "a"); ("Date", "b"); ("ETag", "c")])
     = [("noteid-1", "x"); ("header-etag", "an etag")].
Proof.
  assert (Hnd : NoDup (map fst [("noteid-1", "x")])) by (repeat constructor; intros []).
  split; [exact Hnd|split; [|reflexivity]].
  exact (proj1 (format_response_hidden_text (fun s => s)
    (fun n => if String.eqb n "ETag" then Some "an etag" else None)
    (fun d _ => d) (fun _ v => v) [("noteid-1", "x")] "1.1" "200" "OK"
    [("ETag", "a"); ("Date", "b"); ("ETag", "c")] Hnd)).
Defined.

Lemma format_headers_lines (e_html : string -> string) (description : string -> option string)
  (render_desc : string -> string -> string) (show : string -> string -> string)
  (hdrs : list (string * string)) :
  forall h offset,
  length (fst (format_headers e_html description render_desc show h hdrs offset)) = length hdrs
  /\ forall i n v, nth_error hdrs i = Some (n, v) ->
     nth_error (fst (format_headers e_html description render_desc show h hdrs offset)) i
     = Some (hdr_span e_html show n v (offset + Z.of_nat i + 1)).
Proof.
  induction hdrs as [|[n v] hs IH]; intros h offset; cbn [format_headers fst].
  - split; [reflexivity|intros [|i] ? ? E; discriminate].
  - destruct (IH (snd (format_header e_html description render_desc show h n v (offset + 1)))
                 (offset + 1)) as [Hl Hn].
    split; [cbn [length]; now rewrite Hl|].
    intros [|i] n' v' E; cbn [nth_error] in E |- *.
    + injection E as <- <-; unfold format_header; cbn [fst]; f_equal; f_equal; lia.
    + rewrite (Hn i n' v' E); f_equal; f_equal; lia.
Qed.

(** X9: [format_response] renders one span per response header, in order,
    and the i-th header (counting from 0) carries [data-offset] i+1. *)
Theorem format_response_offsets (e_html : string -> string)
  (description : string -> option string) (render_desc : string -> string -> string)
  (show : string -> string -> string) (hidden_text : list (string * string))
  (version status_code status_phrase : string) (hdrs : list (string * string))
  (i : nat) (n v : string) (Hi : nth_error hdrs i = Some (n, v)) :
  length (fst (format_headers e_html description render_desc show hidden_text hdrs 0))
    = length hdrs
  /\ nth_error (fst (format_headers e_html description render_desc show hidden_text hdrs 0)) i
     = Some (hdr_span e_html show n v (Z.of_nat i + 1))
  /\ fst (format_response e_html description render_desc show hidden_text
            version status_code status_phrase hdrs)
     = "    <span class='status'>HTTP/" ++ e_html version ++ " " ++ e_html status_code ++ " "
       ++ e_html status_phrase ++ "</span>" ++ String nl_char ""
       ++ join (String nl_char "")
            (fst (format_headers e_html description render_desc show hidden_text hdrs 0)).
Proof.
  destruct (format_headers_lines e_html description render_desc show hdrs hidden_text 0)
    as [Hl Hn].
  split; [exact Hl|split; [|reflexivity]].
  rewrite (Hn i n v Hi); reflexivity.
Qed.

Lemma format_response_offsets_witness :
  nth_error [("Date", "x"); ("ETag", "y")] 1 = Some ("ETag", "y")
  /\ nth_error (fst (format_headers (fun s => s) (fun _ => None) (fun d _ => d) (fun _ v => v)
                      [] [("Date", "x"); ("ETag", "y")] 0)) 1
     = Some "    <span data-offset='2' data-name='etag' class='hdr'>ETag:y</span>".
Proof.
  split; [reflexivity|].
  destruct (format_response_offsets (fun s => s) (fun _ => None) (fun d _ => d) (fun _ v => v)
              [] "1.1" "200" "OK" [("Date", "x"); ("ETag", "y")] 1 "ETag" "y" eq_refl)
    as [_ [-> _]].
  reflexivity.
Defined.

Lemma mem_In {B : Type} (eq_dec : forall x y : B, {x = y} + {x <> y}) (x : B) (l : list B) :
  mem B eq_dec x l = true <-> In x l.
Proof.
  unfold mem; rewrite existsb_exists; split.
  - intros [y [Hy E]]; destruct (eq_dec y x) as [<-|]; [exact Hy|discriminate].
  - intros Hx; exists x; split; [exact Hx|]; destruct (eq_dec x x); congruence.
Qed.

Lemma list_index_In {B : Type} (eq_dec : forall x y : B, {x = y} + {x <> y}) (x : B) (l : list B) :
  In x l -> exists k, list_index B eq_dec l x = Some k /\ nth_error l k = Some x.
Proof.
  induction l as [|y l IH]; [intros []|]; intros Hx; cbn [list_index].
  destruct (eq_dec y x) as [<-|Hne]; [exists 0%nat; auto|].
  destruct Hx as [->|Hx]; [congruence|].
  destruct (IH Hx) as [k [-> Hk]]; exists (S k); auto.
Qed.

Lemma droid_problem_loop_spec {B : Type} (eq_dec : forall x y : B, {x = y} + {x <> y})
  (ps : list B) :
  forall (sp : list B) (acc : list nat), NoDup sp ->
  exists ext en,
    droid_problem_loop B eq_dec sp acc ps = Some (app sp ext, app acc en)
    /\ NoDup (app sp ext) /\ incl ext ps /\ length en = length ps
    /\ forall i p, nth_error ps i = Some p ->
       exists k, nth_error en i = Some k /\ nth_error (app sp ext) k = Some p.
Proof.
  induction ps as [|p ps IH]; intros sp acc Hnd; cbn [droid_problem_loop].
  - exists [], []; rewrite !app_nil_r; repeat split; auto.
    + intros x [].
    + intros [|i] ? E; discriminate.
  - set (sp1 := if mem B eq_dec p sp then sp else app sp [p]).
    assert (Hsp1 : NoDup sp1 /\ In p sp1 /\ exists e1, sp1 = app sp e1 /\ incl e1 [p]).
    { unfold sp1; destruct (mem B eq_dec p sp) eqn:Em.
      - split; [exact Hnd|split; [exact (proj1 (mem_In eq_dec p sp) Em)|exists []; rewrite app_nil_r; split; [reflexivity|intros x []]]].
      - split; [apply nodup_snoc; [exact Hnd|intro Hp; apply (proj2 (mem_In eq_dec p sp)) in Hp; congruence]|].
        split; [apply in_or_app; right; left; reflexivity|exists [p]; split; [reflexivity|apply incl_refl]]. }
    destruct Hsp1 as (Hnd1 & Hin1 & e1 & E1 & I1).
    destruct (list_index_In eq_dec p sp1 Hin1) as (k & Ek & Hk).
    rewrite Ek.
    destruct (IH sp1 (app acc [k]) Hnd1) as (ext2 & en2 & Hr & Hnd2 & I2 & Hl2 & Hn2).
    rewrite Hr, E1, <- !app_assoc.
    exists (app e1 ext2), (k :: en2); split; [reflexivity|].
    split; [rewrite app_assoc, <- E1; exact Hnd2|].
    split; [intros x Hx; apply in_app_or in Hx as [Hx|Hx];
              [apply I1 in Hx; destruct Hx as [<-|[]]; left; reflexivity|right; exact (I2 x Hx)]|].
    split; [cbn [length]; now rewrite Hl2|].
    intros [|i] q Eq; cbn [nth_error] in Eq |- *.
    + injection Eq as <-; exists k; split; [reflexivity|].
      rewrite app_assoc, <- E1, nth_error_app1; [exact Hk|].
      apply nth_error_Some; congruence.
    + rewrite app_assoc, <- E1; exact (Hn2 i q Eq).
Qed.

(** X10: the problem numbering of [format_droid] never fails: starting from
    a duplicate-free [self.problems], it only appends (only WARN and BAD notes,
    so the list stays duplicate-free), gives one number per problem of the
    resource, and the number of each problem indexes that very problem in
    [self.problems], so [self.problems[p]] never raises. *)
Theorem droid_problems_numbering (A : Type) (eq_dec : forall x y : A, {x = y} + {x <> y})
  (level_of : A -> level) (self_problems resource_notes : list A)
  (Hnd : NoDup self_problems) :
  exists ext pr_enum,
    droid_problems A eq_dec level_of self_problems resource_notes
      = Some (app self_problems ext, pr_enum)
    /\ NoDup (app self_problems ext)
    /\ Forall (fun m => is_problem A level_of m = true) ext
    /\ length pr_enum = length (filter (is_problem A level_of) resource_notes)
    /\ forall i p, nth_error (filter (is_problem A level_of) resource_notes) i = Some p ->
       exists k, nth_error pr_enum i = Some k
                 /\ nth_error (app self_problems ext) k = Some p.
Proof.
  destruct (droid_problem_loop_spec eq_dec (filter (is_problem A level_of) resource_notes)
              self_problems [] Hnd) as (ext & en & Hr & Hnd' & I & Hl & Hn).
  exists ext, en; unfold droid_problems; rewrite Hr; cbn [app].
  repeat split; auto.
  apply Forall_forall; intros m Hm; apply I in Hm; apply filter_In in Hm; apply Hm.
Qed.

Definition lvl_of_nat (n : nat) : level := if Nat.even n then WARN else INFO.

Lemma droid_problems_numbering_witness :
  NoDup [4%nat]
  /\ droid_problems nat Nat.eq_dec lvl_of_nat [4%nat] [1%nat; 2%nat; 4%nat; 6%nat; 2%nat]
     = Some ([4%nat; 2%nat; 6%nat], [1%nat; 0%nat; 2%nat; 1%nat])
  /\ exists ext pr_enum,
       droid_problems nat Nat.eq_dec lvl_of_nat [4%nat] [1%nat; 2%nat; 4%nat; 6%nat; 2%nat]
       = Some (app [4%nat] ext, pr_enum).
Proof.
  assert (Hnd : NoDup [4%nat]) by (repeat constructor; intros []).
  split; [exact Hnd|split; [reflexivity|]].
  destruct (droid_problems_numbering nat Nat.eq_dec lvl_of_nat [4%nat]
              [1%nat; 2%nat; 4%nat; 6%nat; 2%nat] Hnd) as (ext & en & E & _).
  exists ext, en; exact E.
Defined.

Ltac done_cases probe base_resp :=
  unfold done; step_m;
  destruct (complete probe) eqn:Hc; cbn [negb];
  [ destruct (String.eqb (status_code probe) "304") eqn:H304;
    [ | destruct (String.eqb (status_code probe) (status_code base_resp)) eqn:Hst;
        [ destruct (String.eqb (payload_md5 probe) (payload_md5 base_resp)) eqn:Hmd | ] ]
  | destruct (http_error probe) eqn:He ];
  cbv beta iota; rewrite ?check_missing_hdrs_eq.

(** X11: [done] raises only when the probe did not complete and carries no
    error: the [AttributeError] of [self.response.http_error.desc] on
    [None]. Every complete probe, and every incomplete one with an error,
    is handled. *)
Theorem lm_done_raises (base_resp probe : Response) (s : Base) (e : PyExc) :
  done base_resp probe s = inl e
  <-> e = AttributeError /\ complete probe = false /\ http_error probe = None.
Proof.
  done_cases probe base_resp;
    (split; intro H;
     [ first [discriminate H | injection H as <-; repeat split; assumption]
     | destruct H as (-> & H1 & H2); first [reflexivity | congruence] ]).
Qed.

(** X12: when [done] returns, it has only appended notes to the base
    resource: at least one, all in the VALIDATION category; and it has set
    [ims_support] to True for a complete 304, to False for a complete
    response with the base's status and payload hash, and left it alone
    otherwise. *)
Theorem lm_done_effects (base_resp probe : Response) (s s' : Base)
  (H : done base_resp probe s = inr (tt, s')) :
  (exists ext, notes s' = app (notes s) ext /\ ext <> []
     /\ Forall (fun n => nc_category (note_class n) = VALIDATION) ext)
  /\ ims_support s'
     = (if complete probe && String.eqb (status_code probe) "304" then Some true
        else if complete probe && String.eqb (status_code probe) (status_code base_resp)
                && String.eqb (payload_md5 probe) (payload_md5 base_resp) then Some false
        else ims_support s).
Proof.
  revert H; done_cases probe base_resp; intro H; try discriminate H;
    injection H as <-; cbn [ims_support notes andb];
    rewrite ?H304, ?Hst, ?Hmd; (split; [|reflexivity]).
  - eexists; split; [rewrite <- app_assoc; reflexivity|split; [discriminate|]].
    constructor; [reflexivity|].
    apply Forall_forall; intros n Hn; apply in_map_iff in Hn as (h & <- & _); reflexivity.
  - eexists; split; [reflexivity|split; [discriminate|repeat constructor]].
  - eexists; split; [reflexivity|split; [discriminate|repeat constructor]].
  - eexists; split; [reflexivity|split; [discriminate|repeat constructor]].
  - eexists; split; [reflexivity|split; [discriminate|repeat constructor]].
Qed.

Definition c12_probe :=
  mkResponse "304" [("etag", HOther); ("vary", HOther)] "" true None.

Lemma lm_done_effects_witness :
  done c12_probe c12_probe (mkBase None []) =
    inr (tt, mkBase (Some true)
      [mkNote "header-last-modified" IMS_304 [];
       missing_note "If-Modified-Since" "cache-control";
       missing_note "If-Modified-Since" "content-location";
       missing_note "If-Modified-Since" "expires"])
  /\ ims_support (mkBase (Some true) []) = Some true.
Proof.
  assert (E : done c12_probe c12_probe (mkBase None []) =
    inr (tt, mkBase (Some true)
      [mkNote "header-last-modified" IMS_304 [];
       missing_note "If-Modified-Since" "cache-control";
       missing_note "If-Modified-Since" "content-location";
       missing_note "If-Modified-Since" "expires"])) by reflexivity.
  split; [exact E|].
  exact (proj2 (lm_done_effects c12_probe c12_probe (mkBase None []) _ E)).
Defined.

Lemma format_yes_no_inj (a b : option bool) : format_yes_no a = format_yes_no b -> a = b.
Proof. destruct a as [[]|], b as [[]|]; intro E; try reflexivity; discriminate E. Qed.

(** X13: the IMS cell of the droid table after the check, on a resource
    whose support was not yet known: it shows yes exactly for a complete 304
    probe, no exactly for a complete non-304 probe with the base's status and
    payload hash, and unknown otherwise. *)
Theorem lm_done_ims_cell (base_resp probe : Response) (s s' : Base)
  (Hinit : ims_support s = None) (H : done base_resp probe s = inr (tt, s')) :
  (format_yes_no (ims_support s') = format_yes_no (Some true)
   <-> complete probe = true /\ status_code probe = "304")
  /\ (format_yes_no (ims_support s') = format_yes_no (Some false)
   <-> complete probe = true /\ status_code probe <> "304"
       /\ status_code probe = status_code base_resp /\ payload_md5 probe = payload_md5 base_resp)
  /\ (format_yes_no (ims_support s') = format_yes_no None
   <-> ~ (complete probe = true /\ status_code probe = "304")
       /\ ~ (complete probe = true /\ status_code probe = status_code base_resp
             /\ payload_md5 probe = payload_md5 base_resp)).
Proof.
  revert H; done_cases probe base_resp; intro H; try discriminate H;
    injection H as <-; cbn [ims_support]; rewrite ?Hinit;
    repeat rewrite String.eqb_eq in *; repeat rewrite String.eqb_neq in *;
    (split; [|split]); split; intro G;
    repeat match goal with
           | G : format_yes_no _ = format_yes_no _ |- _ => apply format_yes_no_inj in G
           end;
    try discriminate G; try tauto; try reflexivity; try congruence;
    try (match type of G with _ /\ _ => destruct G as [G _]; discriminate G end);
    split; intros [G' _]; discriminate G'.
Qed.

Lemma lm_done_ims_cell_witness :
  ims_support (mkBase None []) = None
  /\ done c12_probe c12_probe (mkBase None []) =
       inr (tt, mkBase (Some true)
         [mkNote "header-last-modified" IMS_304 [];
          missing_note "If-Modified-Since" "cache-control";
          missing_note "If-Modified-Since" "content-location";
          missing_note "If-Modified-Since" "expires"])
  /\ complete c12_probe = true /\ status_code c12_probe = "304".
Proof.
  assert (E : done c12_probe c12_probe (mkBase None []) =
    inr (tt, mkBase (Some true)
      [mkNote "header-last-modified" IMS_304 [];
       missing_note "If-Modified-Since" "cache-control";
       missing_note "If-Modified-Since" "content-location";
       missing_note "If-Modified-Since" "expires"])) by reflexivity.
  split; [reflexivity|split; [exact E|]].
  exact (proj1 (proj1 (lm_done_ims_cell c12_probe c12_probe (mkBase None []) _ eq_refl E))
           eq_refl).
Defined.

(* ------------------------------------------------------------------ *)
(** ** The If-Modified-Since value determines the Last-Modified time *)

Definition yoe_of (doe : Z) : Z := (doe - doe / 1460 + doe / 36524 - doe / 146096) / 365.

(** The day of the era of a year of the era, month and day (the inverse
    direction of [civil_from_days]). *)
Definition doe_from (yoe m d : Z) : Z :=
  let mp := if 2 <? m then m - 3 else m + 9 in
  yoe * 365 + yoe / 4 - yoe / 100 + (153 * mp + 2) / 5 + d - 1.

Definition doe_inv_ok (doe : Z) : bool :=
  let yoe := yoe_of doe in
  (0 <=? yoe) && (yoe <? 400)
  && Z.eqb (doe_from yoe (fst (md_of_doe doe)) (snd (md_of_doe doe))) doe.

Lemma doe_inv (doe : Z) :
  0 <= doe < 146097 ->
  0 <= yoe_of doe < 400 /\ doe_from (yoe_of doe) (fst (md_of_doe doe)) (snd (md_of_doe doe)) = doe.
Proof.
  intro H.
  assert (Hc : check_from doe_inv_ok (Z.to_nat 146097) 0 = true) by (vm_compute; reflexivity).
  pose proof (check_from_spec _ _ _ Hc doe ltac:(lia)) as Hok.
  unfold doe_inv_ok in Hok; rewrite !andb_true_iff, Z.leb_le, Z.ltb_lt, Z.eqb_eq in Hok.
  tauto.
Qed.

Lemma civil_from_days_eq (z : Z) :
  civil_from_days z
  = (yoe_of (doe_of z) + (z + 719468) / 146097 * 400
       + (if fst (md_of_doe (doe_of z)) <=? 2 then 1 else 0),
     fst (md_of_doe (doe_of z)), snd (md_of_doe (doe_of z))).
Proof.
  unfold civil_from_days, md_of_doe, yoe_of, doe_of; cbv zeta; cbn [fst snd].
  match goal with |- ((if ?c then _ else _), _, _) = _ => destruct c end;
    f_equal; f_equal; ring.
Qed.

Lemma civil_from_days_inj (z1 z2 : Z) :
  civil_from_days z1 = civil_from_days z2 -> z1 = z2.
Proof.
  rewrite !civil_from_days_eq.
  destruct (doe_inv _ (doe_of_range z1)) as [Hb1 Hi1].
  destruct (doe_inv _ (doe_of_range z2)) as [Hb2 Hi2].
  destruct (md_of_doe (doe_of z1)) as [m1 d1]; destruct (md_of_doe (doe_of z2)) as [m2 d2].
  cbn [fst snd] in *.
  intro E; apply pair_equal_spec in E as [E Ed]; apply pair_equal_spec in E as [Ey Em].
  subst m2 d2.
  assert (Hera : (z1 + 719468) / 146097 = (z2 + 719468) / 146097 /\ yoe_of (doe_of z1) = yoe_of (doe_of z2)) by lia.
  destruct Hera as [Hera Hyoe]; rewrite Hyoe in Hi1.
  assert (Hdoe : doe_of z1 = doe_of z2) by congruence.
  unfold doe_of in Hdoe; lia.
Qed.

Lemma utcfromtimestamp_fields (ts : Z) (l_m : datetime) :
  utcfromtimestamp ts = Some l_m ->
  civil_from_days (dt_days l_m) = (dt_year l_m, dt_month l_m, dt_day l_m)
  /\ ts = dt_days l_m * 86400 + dt_hour l_m * 3600 + dt_minute l_m * 60 + dt_second l_m.
Proof.
  unfold utcfromtimestamp.
  destruct (civil_from_days (ts / 86400)) as [[y m] d] eqn:Hc.
  destruct ((1 <=? y) && (y <=? 9999)); [|discriminate].
  intro E; injection E as <-; cbn [dt_days dt_year dt_month dt_day dt_hour dt_minute dt_second].
  split; [exact Hc|].
  pose proof (Z.div_mod ts 86400 ltac:(lia)).
  pose proof (Z.div_mod (ts mod 86400) 3600 ltac:(lia)).
  pose proof (Z.div_mod (ts mod 86400 mod 3600) 60 ltac:(lia)).
  rewrite (Z.mod_mod_divide (ts mod 86400) 3600 60) in H1 by (exists 60; lia).
  lia.
Qed.

(** Value of a string of decimal digits. *)
Fixpoint digits_val_aux (s : string) (acc : Z) : Z :=
  match s with
  | EmptyString => acc
  | String c s' => digits_val_aux s' (acc * 10 + (Z.of_nat (nat_of_ascii c) - 48))
  end.

Definition digits_val (s : string) : Z := digits_val_aux s 0.

Lemma pct_d_2_val (n : Z) : 0 <= n < 100 -> digits_val (pct_d 2 n) = n.
Proof.
  intro H.
  assert (Hc : check_from (fun k => Z.eqb (digits_val (pct_d 2 k)) k) 100 0 = true)
    by (vm_compute; reflexivity).
  exact (proj1 (Z.eqb_eq _ _) (check_from_spec _ _ _ Hc n ltac:(lia))).
Qed.

Lemma pct_d_4_val (n : Z) : 1 <= n <= 9999 -> digits_val (pct_d 4 n) = n.
Proof.
  intro H.
  assert (Hc : check_from (fun k => Z.eqb (digits_val (pct_d 4 k)) k) (Z.to_nat 9999) 1 = true)
    by (vm_compute; reflexivity).
  exact (proj1 (Z.eqb_eq _ _) (check_from_spec _ _ _ Hc n ltac:(lia))).
Qed.

Lemma month_name_inj (m1 m2 : Z) (mo : string) :
  1 <= m1 <= 12 -> 1 <= m2 <= 12 ->
  py_index _months m1 = Some (Some mo) -> py_index _months m2 = Some (Some mo) -> m1 = m2.
Proof.
  intros B1 B2.
  assert (m1 = 1 \/ m1 = 2 \/ m1 = 3 \/ m1 = 4 \/ m1 = 5 \/ m1 = 6 \/ m1 = 7 \/ m1 = 8
          \/ m1 = 9 \/ m1 = 10 \/ m1 = 11 \/ m1 = 12) as Hm1 by lia.
  assert (m2 = 1 \/ m2 = 2 \/ m2 = 3 \/ m2 = 4 \/ m2 = 5 \/ m2 = 6 \/ m2 = 7 \/ m2 = 8
          \/ m2 = 9 \/ m2 = 10 \/ m2 = 11 \/ m2 = 12) as Hm2 by lia.
  repeat destruct Hm1 as [Hm1|Hm1]; subst m1; repeat destruct Hm2 as [Hm2|Hm2]; subst m2;
    intros E1 E2; try reflexivity; vm_compute in E1, E2; congruence.
Qed.

Lemma string_app_len_inj (a1 a2 b1 b2 : string) :
  String.length a1 = String.length a2 -> a1 ++ b1 = a2 ++ b2 -> a1 = a2 /\ b1 = b2.
Proof.
  revert a2; induction a1 as [|c a1 IH]; intros [|c' a2] L E; try discriminate L.
  - split; [reflexivity|exact E].
  - injection L as L; injection E as -> E.
    destruct (IH a2 L E) as [-> ->]; split; reflexivity.
Qed.

Lemma date_str_some (ts : Z) (l_m : datetime) :
  utcfromtimestamp ts = Some l_m ->
  exists wd mo,
    py_index _weekdays (weekday l_m) = Some wd /\ String.length wd = 3%nat
    /\ py_index _months (dt_month l_m) = Some (Some mo) /\ String.length mo = 3%nat
    /\ date_str l_m
       = Some (wd ++ ", " ++ pct_d 2 (dt_day l_m) ++ " " ++ mo ++ " "
               ++ pct_d 4 (dt_year l_m) ++ " " ++ pct_d 2 (dt_hour l_m) ++ ":"
               ++ pct_d 2 (dt_minute l_m) ++ ":" ++ pct_d 2 (dt_second l_m) ++ " GMT").
Proof.
  intro H; pose proof (utcfromtimestamp_bounds _ _ H) as B.
  destruct (weekday_name l_m ltac:(lia)) as (wd & Ew & _ & Lw).
  destruct (month_name l_m ltac:(lia)) as (mo & Em & _ & Lm).
  exists wd, mo; repeat split; auto.
  unfold date_str; rewrite Ew, Em; reflexivity.
Qed.

(** Splits [a ++ rest1 = b ++ rest2] at a known common length. *)
Ltac split_at H L E :=
  apply string_app_len_inj in H as [E H]; [|exact L].

Lemma date_str_fields (ts1 ts2 : Z) (l1 l2 : datetime) (v : string) :
  utcfromtimestamp ts1 = Some l1 -> utcfromtimestamp ts2 = Some l2 ->
  date_str l1 = Some v -> date_str l2 = Some v ->
  dt_day l1 = dt_day l2 /\ dt_month l1 = dt_month l2 /\ dt_year l1 = dt_year l2
  /\ dt_hour l1 = dt_hour l2 /\ dt_minute l1 = dt_minute l2 /\ dt_second l1 = dt_second l2.
Proof.
  intros U1 U2 D1 D2.
  pose proof (utcfromtimestamp_bounds _ _ U1) as B1.
  pose proof (utcfromtimestamp_bounds _ _ U2) as B2.
  destruct (date_str_some _ _ U1) as (wd1 & mo1 & _ & Lw1 & Em1 & Lm1 & S1).
  destruct (date_str_some _ _ U2) as (wd2 & mo2 & _ & Lw2 & Em2 & Lm2 & S2).
  rewrite S1 in D1; rewrite S2 in D2; rewrite <- D2 in D1; injection D1 as D.
  assert (L2 : forall a b, 0 <= a < 100 -> 0 <= b < 100 ->
                String.length (pct_d 2 a) = String.length (pct_d 2 b))
    by (intros a b Ha Hb; rewrite (pct_d_2_length a Ha), (pct_d_2_length b Hb); reflexivity).
  assert (L4 : String.length (pct_d 4 (dt_year l1)) = String.length (pct_d 4 (dt_year l2)))
    by (rewrite (pct_d_4_length (dt_year l1) ltac:(lia)), (pct_d_4_length (dt_year l2) ltac:(lia)); reflexivity).
  split_at D (eq_trans Lw1 (eq_sym Lw2)) Ewd; injection D as D.
  split_at D (L2 (dt_day l1) (dt_day l2) ltac:(lia) ltac:(lia)) Eday; injection D as D.
  split_at D (eq_trans Lm1 (eq_sym Lm2)) Emo; injection D as D.
  split_at D L4 Eyear; injection D as D.
  split_at D (L2 (dt_hour l1) (dt_hour l2) ltac:(lia) ltac:(lia)) Ehour; injection D as D.
  split_at D (L2 (dt_minute l1) (dt_minute l2) ltac:(lia) ltac:(lia)) Emin; injection D as D.
  split_at D (L2 (dt_second l1) (dt_second l2) ltac:(lia) ltac:(lia)) Esec.
  subst mo2.
  split; [rewrite <- (pct_d_2_val (dt_day l1)), <- (pct_d_2_val (dt_day l2)), Eday by lia; reflexivity|].
  split; [exact (month_name_inj (dt_month l1) (dt_month l2) mo1 ltac:(lia) ltac:(lia) Em1 Em2)|].
  split; [rewrite <- (pct_d_4_val (dt_year l1)), <- (pct_d_4_val (dt_year l2)), Eyear by lia; reflexivity|].
  split; [rewrite <- (pct_d_2_val (dt_hour l1)), <- (pct_d_2_val (dt_hour l2)), Ehour by lia; reflexivity|].
  split; [rewrite <- (pct_d_2_val (dt_minute l1)), <- (pct_d_2_val (dt_minute l2)), Emin by lia; reflexivity|].
  rewrite <- (pct_d_2_val (dt_second l1)), <- (pct_d_2_val (dt_second l2)), Esec by lia; reflexivity.
Qed.

(** X14: the If-Modified-Since value identifies the Last-Modified time to
    the second: two base responses whose [last-modified] timestamps both
    convert get the same request headers only when the timestamps are equal. *)
Theorem lm_ims_date_injective (base_req : Request) (r1 r2 : Response) (ts1 ts2 : Z)
  (H1 : lookup (parsed_headers r1) "last-modified" = Some (HInt ts1))
  (H2 : lookup (parsed_headers r2) "last-modified" = Some (HInt ts2))
  (V1 : utcfromtimestamp ts1 <> None) (V2 : utcfromtimestamp ts2 <> None)
  (E : modify_req_hdrs base_req r1 = modify_req_hdrs base_req r2) :
  ts1 = ts2.
Proof.
  destruct (utcfromtimestamp ts1) as [l1|] eqn:U1; [|congruence].
  destruct (utcfromtimestamp ts2) as [l2|] eqn:U2; [|congruence].
  assert (exists v, date_str l1 = Some v) as [v1 S1]
    by (destruct (date_str_some _ _ U1) as (? & ? & _ & _ & _ & _ & S); eexists; exact S).
  assert (exists v, date_str l2 = Some v) as [v2 S2]
    by (destruct (date_str_some _ _ U2) as (? & ? & _ & _ & _ & _ & S); eexists; exact S).
  unfold modify_req_hdrs in E.
  rewrite (has_key_lookup _ _ _ H1), H1, U1, S1 in E.
  rewrite (has_key_lookup _ _ _ H2), H2, U2, S2 in E.
  injection E as E; apply app_inj_tail in E as [_ Ev]; injection Ev as Ev.
  subst v2.
  destruct (date_str_fields ts1 ts2 l1 l2 v1 U1 U2 S1 S2) as (Ed & Em & Ey & Eh & Emi & Es).
  destruct (utcfromtimestamp_fields _ _ U1) as [C1 T1].
  destruct (utcfromtimestamp_fields _ _ U2) as [C2 T2].
  assert (Edays : dt_days l1 = dt_days l2)
    by (apply civil_from_days_inj; rewrite C1, C2, Ed, Em, Ey; reflexivity).
  rewrite T1, T2, Edays, Eh, Emi, Es; reflexivity.
Qed.

Definition c14_req := mkRequest [("Accept", "text/html")].
Definition c14_base := mkResponse "200" [("last-modified", HInt 1678000089)] "md5-a" true None.
Definition c14_other :=
  mkResponse "404" [("etag", HOther); ("last-modified", HInt 1678000089)] "md5-b" true None.

Lemma lm_ims_date_injective_witness :
  utcfromtimestamp 1678000089 <> None
  /\ modify_req_hdrs c14_req c14_base = modify_req_hdrs c14_req c14_other
  /\ 1678000089 = 1678000089.
Proof.
  assert (V : utcfromtimestamp 1678000089 <> None) by (vm_compute; discriminate).
  assert (E : modify_req_hdrs c14_req c14_base = modify_req_hdrs c14_req c14_other)
    by (vm_compute; reflexivity).
  split; [exact V|split; [exact E|]].
  exact (lm_ims_date_injective c14_req c14_base c14_other 1678000089 1678000089
           eq_refl eq_refl V V E).
Defined.
